(** * product-service: the Product entity and its use cases

    A shallow embedding of

    - [internal/domain/entities] (the [Product] struct, its mutators and the
      validated factory [NewProduct]),
    - [internal/domain/errors] (the [DomainError] taxonomy),
    - [internal/application/ports] (the [ProductRepository] interface),
    - [internal/application/dto] and [internal/application/usecases]
      (the request and response shapes and the use cases), and
    - the GORM repository adapter, over a table of rows.

    Go values are modelled as the program has them: a [string] is its
    sequence of bytes, [int] is a 64-bit two's complement integer, [float64]
    is an IEEE 754 binary64 number, a method with a pointer receiver is a
    function that returns the receiver's new value next to its result, and
    [time.Now()] is an explicit clock reading. *)

From Stdlib Require Import ZArith NArith List String Ascii Bool Lia.
From Stdlib Require Import Floats.
Import ListNotations.

Open Scope string_scope.
Open Scope Z_scope.

(** ** Go's [int] *)

Module GoInt.

Definition minInt : Z := - 2 ^ 63.
Definition maxInt : Z := 2 ^ 63 - 1.

(** The values an [int] variable can hold. *)
Definition is_int (z : Z) : Prop := minInt <= z <= maxInt.

(** Two's complement wrap-around of an arithmetic result. *)
Definition wrap (z : Z) : Z := (z + 2 ^ 63) mod 2 ^ 64 - 2 ^ 63.

Definition add (a b : Z) : Z := wrap (a + b).
Definition sub (a b : Z) : Z := wrap (a - b).

End GoInt.

(** ** Go's [strings] package on byte strings *)

(** The table behind [unicode.ToUpper], consulted by [strings.ToUpper] only
    for a string that holds a byte outside ASCII.  It belongs to Go's standard
    library, not to this repository, and is taken as a parameter:
    [MapToUpper s] stands for [strings.Map(unicode.ToUpper, s)]. *)
Class UnicodeTables : Type := { MapToUpper : string -> string }.

Module GoStrings.

(** [len(s)]: the number of bytes. *)
Definition len (s : string) : Z := Z.of_nat (String.length s).

Definition byte_of (c : ascii) : N := N_of_ascii c.

(** [utf8.RuneSelf]: bytes below it are runes of their own. *)
Definition RuneSelf : N := 128%N.

(** The [asciiSpace] table: tab, line feed, vertical tab, form feed,
    carriage return and space. *)
Definition asciiSpace (c : ascii) : bool :=
  let b := byte_of c in
  ((9 <=? b) && (b <=? 13) || (b =? 32))%N.

(** [unicode.IsSpace] on the runes that UTF-8 encodes in two bytes:
    U+0085 (C2 85) and U+00A0 (C2 A0). *)
Definition space2 (c1 c2 : ascii) : bool :=
  ((byte_of c1 =? 194) && ((byte_of c2 =? 133) || (byte_of c2 =? 160)))%N.

(** [unicode.IsSpace] on the runes that UTF-8 encodes in three bytes:
    U+1680 (E1 9A 80), U+2000..U+200A (E2 80 80..8A), U+2028, U+2029
    (E2 80 A8, A9), U+202F (E2 80 AF), U+205F (E2 81 9F) and
    U+3000 (E3 80 80). *)
Definition space3 (c1 c2 c3 : ascii) : bool :=
  let b1 := byte_of c1 in
  let b2 := byte_of c2 in
  let b3 := byte_of c3 in
  ((b1 =? 225) && (b2 =? 154) && (b3 =? 128)
   || (b1 =? 226) && (b2 =? 128)
        && ((128 <=? b3) && (b3 <=? 138) || (b3 =? 168) || (b3 =? 169) || (b3 =? 175))
   || (b1 =? 226) && (b2 =? 129) && (b3 =? 159)
   || (b1 =? 227) && (b2 =? 128) && (b3 =? 128))%N.

(** A scan over the runes of a string, for a set of runes given by the
    byte sequences that encode them: [is1] for the runes of one byte, [is2]
    for those of two, [is3] for those of three.  UTF-8 is a prefix code, so a
    rune of the set is at the front exactly when one of the three tests holds
    there; a byte sequence that is no such encoding (a malformed one included:
    it decodes to U+FFFD) stops the scan. *)
Section Scan.

Variable is1 : ascii -> bool.
Variable is2 : ascii -> ascii -> bool.
Variable is3 : ascii -> ascii -> ascii -> bool.

(** Drop the runes of the set from the front. *)
Fixpoint skipRunes (s : string) : string :=
  match s with
  | EmptyString => s
  | String c1 r1 =>
      if is1 c1 then skipRunes r1
      else
        match r1 with
        | EmptyString => s
        | String c2 r2 =>
            if is2 c1 c2 then skipRunes r2
            else
              match r2 with
              | EmptyString => s
              | String c3 r3 => if is3 c1 c2 c3 then skipRunes r3 else s
              end
        end
  end.

(** Whether the first rune is of the set. *)
Definition startsWithRune (s : string) : bool :=
  match s with
  | EmptyString => false
  | String c1 r1 =>
      is1 c1
      || match r1 with
         | EmptyString => false
         | String c2 r2 =>
             is2 c1 c2
             || match r2 with
                | EmptyString => false
                | String c3 _ => is3 c1 c2 c3
                end
         end
  end.

(** The strings made of runes of the set and nothing else. *)
Inductive Runes : string -> Prop :=
| Runes_none : Runes EmptyString
| Runes_one (c1 : ascii) (s : string) :
    is1 c1 = true -> Runes s -> Runes (String c1 s)
| Runes_two (c1 c2 : ascii) (s : string) :
    is2 c1 c2 = true -> Runes s -> Runes (String c1 (String c2 s))
| Runes_three (c1 c2 c3 : ascii) (s : string) :
    is3 c1 c2 c3 = true -> Runes s -> Runes (String c1 (String c2 (String c3 s))).

End Scan.

(** [strings.TrimLeftFunc(s, unicode.IsSpace)]: drop the white-space runes at
    the front. *)
Definition trimLeft : string -> string := skipRunes asciiSpace space2 space3.

(** The same scan over the reversed bytes, for the white-space runes at the
    end ([utf8.DecodeLastRuneInString] finds a rune exactly when the string
    ends with its encoding). *)
Definition trimLeftRev : string -> string :=
  skipRunes asciiSpace (fun c1 c2 => space2 c2 c1) (fun c1 c2 c3 => space3 c3 c2 c1).

Definition rev (s : string) : string :=
  string_of_list_ascii (List.rev (list_ascii_of_string s)).

(** [strings.TrimRightFunc(s, unicode.IsSpace)]. *)
Definition trimRight (s : string) : string := rev (trimLeftRev (rev s)).

(** [strings.TrimSpace]: leading white space goes first, trailing white
    space of what is left goes second. *)
Definition TrimSpace (s : string) : string := trimRight (trimLeft s).

(** Whether [s] starts, or ends, with a white-space rune, and the strings
    that hold white space only. *)
Definition leadingSpace : string -> bool := startsWithRune asciiSpace space2 space3.

Definition trailingSpace (s : string) : bool :=
  startsWithRune asciiSpace (fun c1 c2 => space2 c2 c1)
                 (fun c1 c2 c3 => space3 c3 c2 c1) (rev s).


Definition isASCII (s : string) : bool :=
  forallb (fun c => (byte_of c <? RuneSelf)%N) (list_ascii_of_string s).

(** ['a' <= c && c <= 'z'] gives [c - ('a' - 'A')]. *)
Definition upperByte (c : ascii) : ascii :=
  let b := byte_of c in
  if ((97 <=? b) && (b <=? 122))%N then ascii_of_N (b - 32) else c.

Fixpoint mapBytes (f : ascii -> ascii) (s : string) : string :=
  match s with
  | EmptyString => EmptyString
  | String c r => String (f c) (mapBytes f r)
  end.

(** [strings.ToUpper]: the ASCII path rewrites the bytes ['a'..'z']; a
    string with a byte outside ASCII goes through the Unicode table. *)
Definition ToUpper {tables : UnicodeTables} (s : string) : string :=
  if isASCII s then mapBytes upperByte s else MapToUpper s.


End GoStrings.

(** ** Errors *)

(** [internal/domain/errors]: the [DomainError] struct and its package-level
    values. *)
Module productErrors.

Record DomainError : Type := mkDomainError {
  Code : string;
  Message : string;
  Field : string
}.

Definition ErrProductNotFound : DomainError :=
  mkDomainError "PRODUCT_NOT_FOUND" "Product not found" EmptyString.

Definition ErrProductAlreadyExists : DomainError :=
  mkDomainError "PRODUCT_ALREADY_EXISTS" "Product with this SKU already exists" "sku".

Definition ErrInvalidProductSKU : DomainError :=
  mkDomainError "INVALID_SKU" "Invalid SKU format" "sku".

Definition ErrFailedToCheckProductExistance : DomainError :=
  mkDomainError "FAILED_TO_CHECK_PRODUCT_EXISTENCE" "failed to check product existence" EmptyString.

Definition ErrFailedToCreateProduct : DomainError :=
  mkDomainError "FAILED_TO_CREATE_PRODUCT" "failed to create product" EmptyString.

Definition ErrFailedToUpdateProduct : DomainError :=
  mkDomainError "FAILED_TO_UPDATE_PRODUCT" "failed to update product" EmptyString.

Definition NewProductValidationError (field message : string) : DomainError :=
  mkDomainError "VALIDATION_ERROR" message field.

Definition ErrInvalidProductName : DomainError :=
  mkDomainError "INVALID_PRODUCT_NAME" "Invalid product name" "name".

Definition ErrInvalidProductPrice : DomainError :=
  mkDomainError "INVALID_PRICE" "Invalid product price" "price".

Definition ErrInvalidProductStock : DomainError :=
  mkDomainError "INVALID_STOCK" "Invalid stock quantity" "stock".

Definition ErrInvalidProductCategory : DomainError :=
  mkDomainError "INVALID_CATEGORY" "Invalid product category" "category".

Definition ErrProductInactive : DomainError :=
  mkDomainError "PRODUCT_INACTIVE" "Product is inactive" EmptyString.

Definition ErrProductDiscontinued : DomainError :=
  mkDomainError "PRODUCT_DISCONTINUED" "Product has been discontinued" EmptyString.

Definition ErrProductOutOfStock : DomainError :=
  mkDomainError "PRODUCT_OUT_OF_STOCK" "Product is out of stock" EmptyString.

Definition ErrInsufficientStock : DomainError :=
  mkDomainError "INSUFFICIENT_STOCK" "Insufficient stock quantity" "stock".

Definition ErrProductNotAvailable : DomainError :=
  mkDomainError "PRODUCT_NOT_AVAILABLE" "Product is not available for purchase" EmptyString.

Definition DomainError_eqb (a b : DomainError) : bool :=
  String.eqb (Code a) (Code b) && String.eqb (Message a) (Message b)
  && String.eqb (Field a) (Field b).

End productErrors.

(** A value of Go's [error] interface: an [errors.New] string, a
    [*DomainError], or an error that wraps another one (what a storage driver
    may hand to the port). *)
Inductive error : Type :=
| errorString (msg : string)
| domainError (e : productErrors.DomainError)
| wrapError (msg : string) (cause : error).

(** [err.Error()]. *)
Fixpoint Error (e : error) : string :=
  match e with
  | errorString msg => msg
  | domainError d =>
      if String.eqb (productErrors.Field d) EmptyString
      then productErrors.Code d ++ ": " ++ productErrors.Message d
      else productErrors.Code d ++ ": " ++ productErrors.Message d
           ++ " (field: " ++ productErrors.Field d ++ ")"
  | wrapError msg cause => msg ++ ": " ++ Error cause
  end.

(** Equality of two error values.  Go compares the package-level errors by
    pointer; each of them has a text of its own, so the texts tell them
    apart. *)
Fixpoint error_eqb (a b : error) : bool :=
  match a, b with
  | errorString x, errorString y => String.eqb x y
  | domainError d, domainError d' => productErrors.DomainError_eqb d d'
  | wrapError m c, wrapError m' c' => String.eqb m m' && error_eqb c c'
  | _, _ => false
  end.

(** [errors.Is(err, target)]: [err] or an error in its chain is the target. *)
Fixpoint errors_Is (err target : error) : bool :=
  error_eqb err target
  || match err with
     | wrapError _ cause => errors_Is cause target
     | _ => false
     end.

(** A Go result pair [(value, error)] of which exactly one side is set. *)
Inductive result (A : Type) : Type :=
| Ok (a : A)
| Err (e : error).
Arguments Ok {A} a.
Arguments Err {A} e.

(** ** The Product entity *)

(** A reading of [time.Now()]. *)
Definition Time : Type := Z.

Module entities.

(** [type ProductStatus string] and its three constants. *)
Definition ProductStatus : Type := string.
Definition ProductStatusActive : ProductStatus := "active".
Definition ProductStatusInactive : ProductStatus := "inactive".
Definition ProductStatusDiscontinued : ProductStatus := "discontinued".

Record Product : Type := mkProduct {
  ID : N;
  Name : string;
  Description : string;
  SKU : string;
  Price : float;
  Category : string;
  Brand : string;
  Stock : Z;
  Status : ProductStatus;
  CreatedAt : Time;
  UpdatedAt : Time
}.

Definition IsActive (p : Product) : bool :=
  String.eqb (Status p) ProductStatusActive.

Definition IsInStock (p : Product) : bool := 0 <? Stock p.

Definition IsAvailable (p : Product) : bool := IsActive p && IsInStock p.

(** Direct assignments to a field, as the use-case layer makes them. *)
Definition withName (v : string) (p : Product) : Product :=
  mkProduct (ID p) v (Description p) (SKU p) (Price p) (Category p)
            (Brand p) (Stock p) (Status p) (CreatedAt p) (UpdatedAt p).

Definition withDescription (v : string) (p : Product) : Product :=
  mkProduct (ID p) (Name p) v (SKU p) (Price p) (Category p)
            (Brand p) (Stock p) (Status p) (CreatedAt p) (UpdatedAt p).

Definition withCategory (v : string) (p : Product) : Product :=
  mkProduct (ID p) (Name p) (Description p) (SKU p) (Price p) v
            (Brand p) (Stock p) (Status p) (CreatedAt p) (UpdatedAt p).

Definition withBrand (v : string) (p : Product) : Product :=
  mkProduct (ID p) (Name p) (Description p) (SKU p) (Price p) (Category p)
            v (Stock p) (Status p) (CreatedAt p) (UpdatedAt p).

Definition setStatus (st : ProductStatus) (now : Time) (p : Product) : Product :=
  mkProduct (ID p) (Name p) (Description p) (SKU p) (Price p) (Category p)
            (Brand p) (Stock p) st (CreatedAt p) now.

Definition setStock (q : Z) (now : Time) (p : Product) : Product :=
  mkProduct (ID p) (Name p) (Description p) (SKU p) (Price p) (Category p)
            (Brand p) q (Status p) (CreatedAt p) now.

Definition setPrice (x : float) (now : Time) (p : Product) : Product :=
  mkProduct (ID p) (Name p) (Description p) (SKU p) x (Category p)
            (Brand p) (Stock p) (Status p) (CreatedAt p) now.

(** The status transitions: the receiver after the call, [now] being the
    call's reading of the clock. *)
Definition Activate (now : Time) (p : Product) : Product :=
  setStatus ProductStatusActive now p.

Definition Deactivate (now : Time) (p : Product) : Product :=
  setStatus ProductStatusInactive now p.

Definition Discontinue (now : Time) (p : Product) : Product :=
  setStatus ProductStatusDiscontinued now p.

(** The mutators that can fail: the receiver after the call and the
    returned [error] ([None] is [nil]). *)
Definition UpdateStock (now : Time) (quantity : Z) (p : Product)
  : Product * option error :=
  if quantity <? 0
  then (p, Some (errorString "stock quantity cannot be negative"))
  else (setStock quantity now p, None).

Definition ReduceStock (now : Time) (quantity : Z) (p : Product)
  : Product * option error :=
  if quantity <=? 0
  then (p, Some (errorString "reduction quantity must be positive"))
  else if Stock p <? quantity
  then (p, Some (errorString "insufficient stock"))
  else (setStock (GoInt.sub (Stock p) quantity) now p, None).

Definition AddStock (now : Time) (quantity : Z) (p : Product)
  : Product * option error :=
  if quantity <=? 0
  then (p, Some (errorString "addition quantity must be positive"))
  else (setStock (GoInt.add (Stock p) quantity) now p, None).

Definition UpdatePrice (now : Time) (price : float) (p : Product)
  : Product * option error :=
  if (price <? 0)%float
  then (p, Some (errorString "price cannot be negative"))
  else (setPrice price now p, None).

(** The float64 constant [999999.99], that is the binary64 number nearest
    to it. *)
Definition maxPrice : float := 0x1.e847ffae147aep+19%float.

Definition validateProductName (name : string) : option error :=
  let name := GoStrings.TrimSpace name in
  if String.eqb name EmptyString then Some (errorString "product name is required")
  else if GoStrings.len name <? 2
  then Some (errorString "product name must be at least 2 characters long")
  else if 255 <? GoStrings.len name
  then Some (errorString "product name must be less than 255 characters")
  else None.

Definition validateSKU (sku : string) : option error :=
  let sku := GoStrings.TrimSpace sku in
  if String.eqb sku EmptyString then Some (errorString "SKU is required")
  else if GoStrings.len sku <? 3
  then Some (errorString "SKU must be at least 3 characters long")
  else if 50 <? GoStrings.len sku
  then Some (errorString "SKU must be less than 50 characters")
  else None.

Definition validatePrice (price : float) : option error :=
  if (price <? 0)%float then Some (errorString "price cannot be negative")
  else if (maxPrice <? price)%float
  then Some (errorString "price cannot exceed 999,999.99")
  else None.

Definition validateStock (stock : Z) : option error :=
  if stock <? 0 then Some (errorString "stock cannot be negative") else None.

(** The validated factory.  It reads the clock once; the new entity's [ID]
    is the zero value. *)
Definition NewProduct {tables : UnicodeTables} (now : Time)
    (name description sku category brand : string) (price : float) (stock : Z)
  : result Product :=
  match validateProductName name with
  | Some err => Err err
  | None =>
  match validateSKU sku with
  | Some err => Err err
  | None =>
  match validatePrice price with
  | Some err => Err err
  | None =>
  match validateStock stock with
  | Some err => Err err
  | None =>
  if String.eqb (GoStrings.TrimSpace category) EmptyString
  then Err (errorString "category is required")
  else
    Ok (mkProduct 0%N
          (GoStrings.TrimSpace name)
          (GoStrings.TrimSpace description)
          (GoStrings.ToUpper (GoStrings.TrimSpace sku))
          price
          (GoStrings.TrimSpace category)
          (GoStrings.TrimSpace brand)
          stock
          ProductStatusActive
          now
          now)
  end end end end.

(** The mutating operations as values, to speak of a sequence of calls on one
    entity: [apply] is the call, [applyAll] makes the calls of a list one
    after the other, the [n]-th of them at the clock reading [clock n],
    whether or not a call fails. *)
Inductive Operation : Type :=
| OpActivate
| OpDeactivate
| OpDiscontinue
| OpUpdateStock (quantity : Z)
| OpReduceStock (quantity : Z)
| OpAddStock (quantity : Z)
| OpUpdatePrice (price : float).

Definition apply (now : Time) (op : Operation) (p : Product) : Product * option error :=
  match op with
  | OpActivate => (Activate now p, None)
  | OpDeactivate => (Deactivate now p, None)
  | OpDiscontinue => (Discontinue now p, None)
  | OpUpdateStock quantity => UpdateStock now quantity p
  | OpReduceStock quantity => ReduceStock now quantity p
  | OpAddStock quantity => AddStock now quantity p
  | OpUpdatePrice price => UpdatePrice now price p
  end.

Fixpoint applyAll (clock : nat -> Time) (n : nat) (ops : list Operation) (p : Product)
  : Product :=
  match ops with
  | [] => p
  | op :: rest => applyAll clock (S n) rest (fst (apply (clock n) op p))
  end.

End entities.

(** ** The persistence port *)

Module ports.

(** [ProductRepository]: the four methods of the interface, over the
    store's state [S].  A method takes the state it finds and gives back
    its answer and the state it leaves.  A Go pair [(value, err)] with
    [err != nil] is [Err err]: the callers look at [err] first.  The entity
    a method hands out is a value of its own (the adapter below builds it
    from the row), so a later change to it does not reach the store. *)
Record ProductRepository (S : Type) : Type := mkRepository {
  Create : entities.Product -> S -> result entities.Product * S;
  GetByID : N -> S -> result entities.Product * S;
  GetBySKU : string -> S -> result entities.Product * S;
  ExistsBySKU : string -> S -> result bool * S
}.
Arguments Create {S} _ _ _.
Arguments GetByID {S} _ _ _.
Arguments GetBySKU {S} _ _ _.
Arguments ExistsBySKU {S} _ _ _.

End ports.

(** ** Request and response shapes *)

Module dto.

Module CreateProductRequestDTO.
Record t : Type := mk {
  Name : string;
  Description : string;
  SKU : string;
  Price : float;
  Category : string;
  Brand : string;
  Stock : Z
}.
End CreateProductRequestDTO.

(** [Price *float64] and [Stock *int]: [None] is the nil pointer. *)
Module UpdateProductRequestDTO.
Record t : Type := mk {
  Name : string;
  Description : string;
  Category : string;
  Brand : string;
  Price : option float;
  Stock : option Z
}.
End UpdateProductRequestDTO.

Module ProductResponseDTO.
Record t : Type := mk {
  ID : N;
  Name : string;
  Description : string;
  SKU : string;
  Price : float;
  Category : string;
  Brand : string;
  Stock : Z;
  Status : entities.ProductStatus;
  IsActive : bool;
  IsInStock : bool;
  IsAvailable : bool;
  CreatedAt : Time;
  UpdatedAt : Time
}.
End ProductResponseDTO.

Module ProductListResponseDTO.
Record t : Type := mk {
  Products : list ProductResponseDTO.t;
  Total : Z;
  Page : Z;
  PageSize : Z
}.
End ProductListResponseDTO.

Definition ToEntity {tables : UnicodeTables} (now : Time) (d : CreateProductRequestDTO.t)
  : result entities.Product :=
  entities.NewProduct now
    (CreateProductRequestDTO.Name d)
    (CreateProductRequestDTO.Description d)
    (CreateProductRequestDTO.SKU d)
    (CreateProductRequestDTO.Category d)
    (CreateProductRequestDTO.Brand d)
    (CreateProductRequestDTO.Price d)
    (CreateProductRequestDTO.Stock d).

Definition ProductToResponseDTO (product : entities.Product) : ProductResponseDTO.t :=
  ProductResponseDTO.mk
    (entities.ID product)
    (entities.Name product)
    (entities.Description product)
    (entities.SKU product)
    (entities.Price product)
    (entities.Category product)
    (entities.Brand product)
    (entities.Stock product)
    (entities.Status product)
    (entities.IsActive product)
    (entities.IsInStock product)
    (entities.IsAvailable product)
    (entities.CreatedAt product)
    (entities.UpdatedAt product).

Definition ProductsToResponseDTOs (products : list entities.Product)
  : list ProductResponseDTO.t :=
  List.map ProductToResponseDTO products.

End dto.

(** ** The use cases *)

(** A call that reached the port, with its argument. *)
Inductive PortCall : Type :=
| CallCreate (product : entities.Product)
| CallGetByID (id : N)
| CallGetBySKU (sku : string)
| CallExistsBySKU (sku : string).


(** What a use case runs in: the store behind the port, the calls made to the
    port so far (oldest first), and how often the clock has been read. *)
Record World (S : Type) : Type := mkWorld {
  store : S;
  calls : list PortCall;
  clockReads : nat
}.
Arguments mkWorld {S} _ _ _.
Arguments store {S} _.
Arguments calls {S} _.
Arguments clockReads {S} _.

Definition UC (S A : Type) : Type := World S -> A * World S.

Definition ret {S A : Type} (a : A) : UC S A := fun w => (a, w).

Definition bind {S A B : Type} (m : UC S A) (k : A -> UC S B) : UC S B :=
  fun w => let (a, w') := m w in k a w'.

Notation "x <- m ;; k" := (bind m (fun x => k))
  (at level 61, m at next level, right associativity).

(** The calls a run made: what [w'] has on top of the calls [w] had. *)
Definition callsSince {S : Type} (w w' : World S) : list PortCall :=
  List.skipn (List.length (calls w)) (calls w').

Module usecases.

Section WithPort.

Context {S : Type} {tables : UnicodeTables}.

(** [uc.productRepo], and the readings [time.Now()] gives: the [n]-th
    reading is [clock n]. *)
Variable productRepo : ports.ProductRepository S.
Variable clock : nat -> Time.

Definition timeNow : UC S Time :=
  fun w => (clock (clockReads w),
            mkWorld (store w) (calls w) (Datatypes.S (clockReads w))).

Definition portCall {A : Type} (c : PortCall) (f : S -> A * S) : UC S A :=
  fun w => let (a, s') := f (store w) in
           (a, mkWorld s' (calls w ++ [c]) (clockReads w)).

Definition repoCreate (p : entities.Product) : UC S (result entities.Product) :=
  portCall (CallCreate p) (ports.Create productRepo p).

Definition repoGetByID (id : N) : UC S (result entities.Product) :=
  portCall (CallGetByID id) (ports.GetByID productRepo id).

Definition repoGetBySKU (sku : string) : UC S (result entities.Product) :=
  portCall (CallGetBySKU sku) (ports.GetBySKU productRepo sku).

Definition repoExistsBySKU (sku : string) : UC S (result bool) :=
  portCall (CallExistsBySKU sku) (ports.ExistsBySKU productRepo sku).

(** The use-case package's own copy of the SKU check. *)
Definition validateSKU (sku : string) : option error :=
  let sku := GoStrings.TrimSpace sku in
  if String.eqb sku EmptyString then Some (errorString "SKU is required")
  else if GoStrings.len sku <? 3
  then Some (errorString "SKU must be at least 3 characters long")
  else if 50 <? GoStrings.len sku
  then Some (errorString "SKU must be less than 50 characters")
  else None.

(** [CreateProduct].  The logger calls are left out: they return nothing
    and touch neither the port nor the entity.  The clock is read by
    [NewProduct], inside [ToEntity], once its checks have passed; the
    reading is taken here before the call and is unused when they fail. *)
Definition CreateProduct (request : dto.CreateProductRequestDTO.t)
  : UC S (result dto.ProductResponseDTO.t) :=
  match validateSKU (dto.CreateProductRequestDTO.SKU request) with
  | Some _ => ret (Err (domainError productErrors.ErrInvalidProductSKU))
  | None =>
      r <- repoExistsBySKU (dto.CreateProductRequestDTO.SKU request) ;;
      match r with
      | Err _ =>
          ret (Err (domainError productErrors.ErrFailedToCheckProductExistance))
      | Ok true => ret (Err (domainError productErrors.ErrProductAlreadyExists))
      | Ok false =>
          now <- timeNow ;;
          match dto.ToEntity now request with
          | Err err => ret (Err err)
          | Ok domainEntity =>
              c <- repoCreate domainEntity ;;
              match c with
              | Err err =>
                  if errors_Is err (domainError productErrors.ErrFailedToCheckProductExistance)
                  then ret (Err (domainError
                                   productErrors.ErrFailedToCheckProductExistance))
                  else ret (Err (domainError productErrors.ErrFailedToCreateProduct))
              | Ok createdProduct =>
                  ret (Ok (dto.ProductToResponseDTO createdProduct))
              end
          end
      end
  end.

Definition GetProductByID (id : N) : UC S (result dto.ProductResponseDTO.t) :=
  r <- repoGetByID id ;;
  match r with
  | Err err => ret (Err err)
  | Ok product => ret (Ok (dto.ProductToResponseDTO product))
  end.

Definition GetProductBySKU (sku : string) : UC S (result dto.ProductResponseDTO.t) :=
  r <- repoGetBySKU sku ;;
  match r with
  | Err err => ret (Err err)
  | Ok product => ret (Ok (dto.ProductToResponseDTO product))
  end.

(** [UpdateProduct].  A field of the request that is the empty string (or a
    nil pointer) leaves the entity's field alone; name, description, category
    and brand are assigned directly, price and stock go through the entity's
    mutators, each of which reads the clock.  After the last field the source
    has no call to the port: [updatedProduct := existingProduct]. *)
Definition UpdateProduct (id : N) (request : dto.UpdateProductRequestDTO.t)
  : UC S (result dto.ProductResponseDTO.t) :=
  r <- repoGetByID id ;;
  match r with
  | Err err => ret (Err err)
  | Ok existingProduct =>
      let p1 :=
        if String.eqb (dto.UpdateProductRequestDTO.Name request) EmptyString
        then existingProduct
        else entities.withName (dto.UpdateProductRequestDTO.Name request) existingProduct in
      let p2 :=
        if String.eqb (dto.UpdateProductRequestDTO.Description request) EmptyString
        then p1
        else entities.withDescription (dto.UpdateProductRequestDTO.Description request) p1 in
      let p3 :=
        if String.eqb (dto.UpdateProductRequestDTO.Category request) EmptyString
        then p2
        else entities.withCategory (dto.UpdateProductRequestDTO.Category request) p2 in
      let p4 :=
        if String.eqb (dto.UpdateProductRequestDTO.Brand request) EmptyString
        then p3
        else entities.withBrand (dto.UpdateProductRequestDTO.Brand request) p3 in
      r5 <- match dto.UpdateProductRequestDTO.Price request with
            | None => ret (Ok p4)
            | Some price =>
                now <- timeNow ;;
                match entities.UpdatePrice now price p4 with
                | (_, Some err) =>
                    ret (Err (domainError
                                (productErrors.NewProductValidationError "price" (Error err))))
                | (p5, None) => ret (Ok p5)
                end
            end ;;
      match r5 with
      | Err err => ret (Err err)
      | Ok p5 =>
          r6 <- match dto.UpdateProductRequestDTO.Stock request with
                | None => ret (Ok p5)
                | Some stock =>
                    now <- timeNow ;;
                    match entities.UpdateStock now stock p5 with
                    | (_, Some err) =>
                        ret (Err (domainError
                                    (productErrors.NewProductValidationError "stock" (Error err))))
                    | (p6, None) => ret (Ok p6)
                    end
                end ;;
          match r6 with
          | Err err => ret (Err err)
          | Ok updatedProduct => ret (Ok (dto.ProductToResponseDTO updatedProduct))
          end
      end
  end.

(** [ListProducts]: the two bounds checks, then the empty slice
    [products := []*dto.ProductResponseDTO{}] and its length. *)
Definition ListProducts (page pageSize : Z)
  : UC S (result dto.ProductListResponseDTO.t) :=
  let page := if page <? 0 then 0 else page in
  let pageSize := if (pageSize <? 1) || (100 <? pageSize) then 10 else pageSize in
  let products : list dto.ProductResponseDTO.t := [] in
  ret (Ok (dto.ProductListResponseDTO.mk
             products (Z.of_nat (List.length products)) page pageSize)).

(** [UpdateProductStock] and [UpdateProductPrice]: load, call the entity's
    mutator, wrap its error as a validation error of the field.  Where the
    source has the comment about saving to the repository there is no call. *)
Definition UpdateProductStock (id : N) (stock : Z)
  : UC S (result dto.ProductResponseDTO.t) :=
  r <- repoGetByID id ;;
  match r with
  | Err err => ret (Err err)
  | Ok product =>
      now <- timeNow ;;
      match entities.UpdateStock now stock product with
      | (_, Some err) =>
          ret (Err (domainError
                      (productErrors.NewProductValidationError "stock" (Error err))))
      | (product', None) => ret (Ok (dto.ProductToResponseDTO product'))
      end
  end.

Definition UpdateProductPrice (id : N) (price : float)
  : UC S (result dto.ProductResponseDTO.t) :=
  r <- repoGetByID id ;;
  match r with
  | Err err => ret (Err err)
  | Ok product =>
      now <- timeNow ;;
      match entities.UpdatePrice now price product with
      | (_, Some err) =>
          ret (Err (domainError
                      (productErrors.NewProductValidationError "price" (Error err))))
      | (product', None) => ret (Ok (dto.ProductToResponseDTO product'))
      end
  end.

(** The three status use cases: load, call the transition, project. *)
Definition ActivateProduct (id : N) : UC S (result dto.ProductResponseDTO.t) :=
  r <- repoGetByID id ;;
  match r with
  | Err err => ret (Err err)
  | Ok product =>
      now <- timeNow ;;
      ret (Ok (dto.ProductToResponseDTO (entities.Activate now product)))
  end.

Definition DeactivateProduct (id : N) : UC S (result dto.ProductResponseDTO.t) :=
  r <- repoGetByID id ;;
  match r with
  | Err err => ret (Err err)
  | Ok product =>
      now <- timeNow ;;
      ret (Ok (dto.ProductToResponseDTO (entities.Deactivate now product)))
  end.

Definition DiscontinueProduct (id : N) : UC S (result dto.ProductResponseDTO.t) :=
  r <- repoGetByID id ;;
  match r with
  | Err err => ret (Err err)
  | Ok product =>
      now <- timeNow ;;
      ret (Ok (dto.ProductToResponseDTO (entities.Discontinue now product)))
  end.

End WithPort.

End usecases.

(** ** The GORM adapter *)

Module product_repository.

Record ProductModel : Type := mkModel {
  ID : N;
  Name : string;
  Description : string;
  SKU : string;
  Price : float;
  Category : string;
  Brand : string;
  Stock : Z;
  Status : string;
  CreatedAt : Time;
  UpdatedAt : Time;
  DeletedAt : option Time
}.

(** What [r.db] talks to: the rows of table [products], the last key its
    sequence gave out, and, while the server cannot be reached, the error
    every statement ends in. *)
Record DB : Type := mkDB {
  products : list ProductModel;
  lastID : N;
  outage : option error
}.

Definition gorm_ErrRecordNotFound : error := errorString "record not found".
Definition gorm_ErrDuplicatedKey : error := errorString "duplicated key not allowed".

(** The server's answer to an insert that breaks the primary key or the
    unique index on [sku]. *)
Definition pgUniqueViolation : error :=
  errorString "ERROR: duplicate key value violates unique constraint (SQLSTATE 23505)".

(** [strings.Contains]. *)
Fixpoint Contains (s substr : string) : bool :=
  String.prefix substr s
  || match s with
     | EmptyString => false
     | String _ r => Contains r substr
     end.

Definition toModel (product : entities.Product) : ProductModel :=
  mkModel (entities.ID product) (entities.Name product)
          (entities.Description product) (entities.SKU product)
          (entities.Price product) (entities.Category product)
          (entities.Brand product) (entities.Stock product)
          (entities.Status product) (entities.CreatedAt product)
          (entities.UpdatedAt product) None.

Definition toEntity (model : ProductModel) : entities.Product :=
  entities.mkProduct (ID model) (Name model) (Description model) (SKU model)
                     (Price model) (Category model) (Brand model) (Stock model)
                     (Status model) (CreatedAt model) (UpdatedAt model).

(** [handleError] on an error that is not nil. *)
Definition handleError (err : error) : error :=
  if errors_Is err gorm_ErrRecordNotFound
  then domainError productErrors.ErrProductNotFound
  else if errors_Is err gorm_ErrDuplicatedKey
          || (negb (String.eqb (Error err) EmptyString)
              && (Contains (Error err) "duplicate key"
                  || Contains (Error err) "UNIQUE constraint"
                  || Contains (Error err) "sku"))
  then domainError productErrors.ErrProductAlreadyExists
  else err.

(** GORM adds [deleted_at IS NULL] to every query on a model with a
    [DeletedAt] column. *)
Definition live (m : ProductModel) : bool :=
  match DeletedAt m with None => true | Some _ => false end.

(** [Where("sku = ?", sku)]: PostgreSQL compares the column with the argument
    byte for byte; case and blanks count. *)
Definition skuIs (sku : string) (m : ProductModel) : bool :=
  live m && String.eqb (SKU m) sku.

Definition idIs (id : N) (m : ProductModel) : bool :=
  live m && (ID m =? id)%N.

Definition ExistsBySKU (sku : string) (db : DB) : result bool * DB :=
  match outage db with
  | Some _ => (Err (domainError productErrors.ErrFailedToCheckProductExistance), db)
  | None =>
      let count := Z.of_nat (List.length (List.filter (skuIs sku) (products db))) in
      (Ok (0 <? count), db)
  end.

Definition GetByID (id : N) (db : DB) : result entities.Product * DB :=
  match outage db with
  | Some err => (Err (handleError err), db)
  | None =>
      match List.find (idIs id) (products db) with
      | None => (Err (handleError gorm_ErrRecordNotFound), db)
      | Some model => (Ok (toEntity model), db)
      end
  end.

Definition GetBySKU (sku : string) (db : DB) : result entities.Product * DB :=
  match outage db with
  | Some err => (Err (handleError err), db)
  | None =>
      match List.find (skuIs sku) (products db) with
      | None => (Err (handleError gorm_ErrRecordNotFound), db)
      | Some model => (Ok (toEntity model), db)
      end
  end.

(** [r.db.Create(gormModel)]: a zero [ID] takes the next key of the sequence;
    a key or a SKU that a row already has, deleted or not, is refused by the
    server.  The time stamps are the ones the entity carries. *)
Definition insert (gormModel : ProductModel) (db : DB) : result ProductModel * DB :=
  match outage db with
  | Some err => (Err err, db)
  | None =>
      let id := if (ID gormModel =? 0)%N then (lastID db + 1)%N else ID gormModel in
      if List.existsb (fun m => (ID m =? id)%N || String.eqb (SKU m) (SKU gormModel))
                      (products db)
      then (Err pgUniqueViolation, db)
      else
        let row := mkModel id (Name gormModel) (Description gormModel) (SKU gormModel)
                           (Price gormModel) (Category gormModel) (Brand gormModel)
                           (Stock gormModel) (Status gormModel) (CreatedAt gormModel)
                           (UpdatedAt gormModel) (DeletedAt gormModel) in
        (Ok row,
         mkDB (products db ++ [row])
              (if (ID gormModel =? 0)%N then (lastID db + 1)%N else lastID db)
              (outage db))
  end.

Definition Create (product : entities.Product) (db : DB)
  : result entities.Product * DB :=
  match ExistsBySKU (entities.SKU product) db with
  | (Err err, db1) => (Err err, db1)
  | (Ok true, db1) => (Err (domainError productErrors.ErrProductAlreadyExists), db1)
  | (Ok false, db1) =>
      match insert (toModel product) db1 with
      | (Err err, db2) => (Err (handleError err), db2)
      | (Ok gormModel, db2) => (Ok (toEntity gormModel), db2)
      end
  end.

(** The adapter's methods outside the port.  [Updates] with a map and
    [Delete] act on the live rows with the given id and report no error when
    there is none; [Delete] on a model with a [DeletedAt] column stamps the
    row instead of removing it.  [now] is the time written. *)
Definition updateRows (f : ProductModel -> ProductModel) (id : N)
    (rows : list ProductModel) : list ProductModel :=
  List.map (fun m => if idIs id m then f m else m) rows.

Definition setStockColumn (stock : Z) (now : Time) (m : ProductModel) : ProductModel :=
  mkModel (ID m) (Name m) (Description m) (SKU m) (Price m) (Category m) (Brand m)
          stock (Status m) (CreatedAt m) now (DeletedAt m).

Definition setDeletedAt (now : Time) (m : ProductModel) : ProductModel :=
  mkModel (ID m) (Name m) (Description m) (SKU m) (Price m) (Category m) (Brand m)
          (Stock m) (Status m) (CreatedAt m) (UpdatedAt m) (Some now).

Definition statement (change : list ProductModel -> list ProductModel) (db : DB)
  : option error * DB :=
  match outage db with
  | Some err => (Some (handleError err), db)
  | None => (None, mkDB (change (products db)) (lastID db) (outage db))
  end.

Definition UpdateStock (now : Time) (id : N) (stock : Z) (db : DB) : option error * DB :=
  statement (updateRows (setStockColumn stock now) id) db.

Definition Delete (now : Time) (id : N) (db : DB) : option error * DB :=
  statement (updateRows (setDeletedAt now) id) db.

(** [NewGormProductRepository]: the adapter seen through the port. *)
Definition NewGormProductRepository : ports.ProductRepository DB :=
  ports.mkRepository DB Create GetByID GetBySKU ExistsBySKU.

End product_repository.

(** ** The HTTP handler's error mapping *)

Module handlers.

Record ErrorResponse : Type := mkErrorResponse {
  Error : string;
  Message : string;
  Details : list (string * string)
}.

Definition StatusBadRequest : Z := 400.
Definition StatusNotFound : Z := 404.
Definition StatusConflict : Z := 409.
Definition StatusUnprocessableEntity : Z := 422.
Definition StatusInternalServerError : Z := 500.

(** [errors.As(err, &domainErr)]: the first [*DomainError] in the chain. *)
Fixpoint errors_As (err : error) : option productErrors.DomainError :=
  match err with
  | errorString _ => None
  | domainError d => Some d
  | wrapError _ cause => errors_As cause
  end.

(** Whether a [case] of the [switch] lists the code. *)
Definition codeIn (code : string) (listed : list productErrors.DomainError) : bool :=
  List.existsb (fun d => String.eqb code (productErrors.Code d)) listed.

(** [handleError]: the status and the body of the response it writes. *)
Definition handleError (err : error) : Z * ErrorResponse :=
  match errors_As err with
  | Some domainErr =>
      let body :=
        mkErrorResponse (productErrors.Code domainErr) (productErrors.Message domainErr) [] in
      let code := productErrors.Code domainErr in
      if codeIn code [productErrors.ErrProductNotFound]
      then (StatusNotFound, body)
      else if codeIn code [productErrors.ErrProductAlreadyExists]
      then (StatusConflict, body)
      else if codeIn code [productErrors.ErrInvalidProductName;
                           productErrors.ErrInvalidProductSKU;
                           productErrors.ErrInvalidProductPrice;
                           productErrors.ErrInvalidProductStock;
                           productErrors.ErrInvalidProductCategory;
                           productErrors.ErrInsufficientStock]
      then (StatusBadRequest, body)
      else if codeIn code [productErrors.ErrProductInactive;
                           productErrors.ErrProductDiscontinued;
                           productErrors.ErrProductOutOfStock;
                           productErrors.ErrProductNotAvailable]
      then (StatusUnprocessableEntity, body)
      else (StatusBadRequest, body)
  | None =>
      (StatusInternalServerError,
       mkErrorResponse "INTERNAL_ERROR" "An internal error occurred" [])
  end.

End handlers.

(** ** The data model's constraints and the values used in examples *)

(** The constraints of the data model on the inputs of the factory.  Lengths
    are counted as [len] counts them, on the trimmed text. *)
Module Constraint.

Definition name_ok (name : string) : Prop :=
  2 <= GoStrings.len (GoStrings.TrimSpace name) <= 255.

Definition sku_ok (sku : string) : Prop :=
  3 <= GoStrings.len (GoStrings.TrimSpace sku) <= 50.

(** [0 <= price <= 999999.99] in float64's order; no comparison with
    NaN holds. *)
Definition price_ok (price : float) : Prop :=
  (0 <=? price)%float = true /\ (price <=? entities.maxPrice)%float = true.

Definition stock_ok (stock : Z) : Prop := 0 <= stock.


Definition category_ok (category : string) : Prop :=
  GoStrings.TrimSpace category <> EmptyString.






End Constraint.

(** A case table that maps every string to itself.  It stands in for Go's
    where the strings at hand are ASCII, for which [ToUpper] does not look at
    the table. *)
Definition asciiOnly : UnicodeTables := {| MapToUpper := fun s => s |}.

Module Sample.

(** A clock that ticks once a reading. *)
Definition clock (n : nat) : Time := 1700000000 + Z.of_nat n.

(** The float64 constant [999.99]. *)
Definition listPrice : float := 0x1.f3feb851eb852p+9%float.

(** The entity the test suite builds: [NewProduct("iPhone 15", ...)]. *)
Definition iphone : entities.Product :=
  entities.mkProduct 1%N "iPhone 15" "Latest Apple smartphone" "IPH15-128GB"
                     listPrice "Electronics" "Apple" 100
                     entities.ProductStatusActive 1700000000 1700000000.

Definition fiveInStock : entities.Product :=
  entities.mkProduct 7%N "USB cable" "One metre" "USB-C-1M" 4.5%float
                     "Accessories" "Acme" 5 entities.ProductStatusActive
                     1700000000 1700000000.

(** A table that holds the row of [iphone]. *)
Definition oneRow : product_repository.DB :=
  product_repository.mkDB [product_repository.toModel iphone] 1%N None.


(** A table with a row that did not come through the factory: its SKU has
    two letters. *)
Definition legacyRow : product_repository.ProductModel :=
  product_repository.mkModel 2%N "Adapter" "Imported from the old catalogue" "AB"
                             12.5%float "Accessories" "Acme" 40
                             entities.ProductStatusActive 1600000000 1600000000 None.

Definition withLegacyRow : product_repository.DB :=
  product_repository.mkDB [product_repository.toModel iphone; legacyRow] 2%N None.

Definition world (db : product_repository.DB) : World product_repository.DB :=
  mkWorld db [] 0.

(** A request for the stored SKU in lower case, with a blank on each side. *)
Definition sameSkuOtherCase : dto.CreateProductRequestDTO.t :=
  dto.CreateProductRequestDTO.mk "iPhone 15 (blue)" "Another listing" " iph15-128gb "
                                 899.5%float "Electronics" "Apple" 3.

(** A request for a SKU the table holds. *)
Definition storedSku : dto.CreateProductRequestDTO.t :=
  dto.CreateProductRequestDTO.mk "iPhone 15" "Latest Apple smartphone" "IPH15-128GB"
                                 listPrice "Electronics" "Apple" 100.



Definition rename : dto.UpdateProductRequestDTO.t :=
  dto.UpdateProductRequestDTO.mk "iPhone 15 Pro" EmptyString EmptyString EmptyString
                                 None None.

(** A request for a SKU the table does not hold, in lower case and with a
    blank on each side. *)
Definition pixel : dto.CreateProductRequestDTO.t :=
  dto.CreateProductRequestDTO.mk "Pixel 8" "Google phone" " pix8-128gb "
                                 699.5%float "Electronics" "Google" 25.

(** An update whose price and stock are both below zero. *)
Definition belowZero : dto.UpdateProductRequestDTO.t :=
  dto.UpdateProductRequestDTO.mk EmptyString EmptyString EmptyString EmptyString
                                 (Some (-1.5)%float) (Some (-5)).

End Sample.

(** * Properties *)

(** ** Integers and floats *)

Lemma wrap_is_int (z : Z) : GoInt.is_int z -> GoInt.wrap z = z.
Proof.
  unfold GoInt.is_int, GoInt.wrap, GoInt.minInt, GoInt.maxInt. intros H.
  rewrite Z.mod_small by lia. lia.
Qed.

(** The order of floats read through their specification: comparing the other
    way round gives the opposite answer, and no answer for a NaN. *)
Lemma SFcompare_swap (x y : spec_float) :
  SFcompare y x = option_map CompOpp (SFcompare x y).
Proof.
  destruct x as [sx | sx | | sx mx ex], y as [sy | sy | | sy my ey]; simpl;
    try reflexivity;
    try (destruct sx; reflexivity);
    try (destruct sy; reflexivity);
    try (destruct sx, sy; reflexivity).
  destruct sx, sy; simpl; try reflexivity.
  - rewrite (Z.compare_antisym ex ey).
    destruct (ex ?= ey)%Z eqn:E; simpl; try reflexivity.
    f_equal. f_equal.
    change (PosDef.Pos.compare_cont Eq my mx) with (Pos.compare my mx).
    change (PosDef.Pos.compare_cont Eq mx my) with (Pos.compare mx my).
    apply Pos.compare_antisym.
  - rewrite (Z.compare_antisym ex ey).
    destruct (ex ?= ey)%Z eqn:E; simpl; try reflexivity.
    f_equal.
    change (PosDef.Pos.compare_cont Eq my mx) with (Pos.compare my mx).
    change (PosDef.Pos.compare_cont Eq mx my) with (Pos.compare mx my).
    apply Pos.compare_antisym.
Qed.

Lemma leb_true_ltb_false (x y : float) :
  (x <=? y)%float = true -> (y <? x)%float = false.
Proof.
  rewrite leb_spec, ltb_spec. unfold SFleb, SFltb.
  rewrite (SFcompare_swap (Prim2SF x) (Prim2SF y)).
  destruct (SFcompare (Prim2SF x) (Prim2SF y)) as [[ | | ] | ]; simpl;
    intros H; try reflexivity; discriminate H.
Qed.

(** For two floats that are ordered (neither is a NaN), [<=] is the negation
    of [>]. *)
Lemma ltb_false_leb_true (x y : float) :
  SFcompare (Prim2SF x) (Prim2SF y) <> None ->
  (y <? x)%float = false -> (x <=? y)%float = true.
Proof.
  rewrite leb_spec, ltb_spec. unfold SFleb, SFltb.
  rewrite (SFcompare_swap (Prim2SF x) (Prim2SF y)).
  destruct (SFcompare (Prim2SF x) (Prim2SF y)) as [[ | | ] | ]; simpl;
    intros N H; try reflexivity; try discriminate H.
  contradiction N; reflexivity.
Qed.

(** ** The checks of the factory *)

Lemma eqb_empty_len (s : string) :
  String.eqb s EmptyString = true <-> GoStrings.len s = 0.
Proof.
  destruct s; simpl; unfold GoStrings.len; simpl; split; intros H;
    try reflexivity; try discriminate H; lia.
Qed.

(** The two packages carry the same SKU check. *)
Lemma validateSKU_same (sku : string) :
  usecases.validateSKU sku = entities.validateSKU sku.
Proof. reflexivity. Qed.

Lemma validateProductName_ok (name : string) :
  Constraint.name_ok name <-> entities.validateProductName name = None.
Proof.
  unfold Constraint.name_ok, entities.validateProductName.
  set (t := GoStrings.TrimSpace name).
  destruct (String.eqb t EmptyString) eqn:E.
  - apply eqb_empty_len in E. split; [ lia | discriminate ].
  - destruct (Z.ltb_spec (GoStrings.len t) 2); [ split; [ lia | discriminate ] | ].
    destruct (Z.ltb_spec 255 (GoStrings.len t)); split; try lia; try discriminate.
    reflexivity.
Qed.

Lemma validateSKU_ok (sku : string) :
  Constraint.sku_ok sku <-> entities.validateSKU sku = None.
Proof.
  unfold Constraint.sku_ok, entities.validateSKU.
  set (t := GoStrings.TrimSpace sku).
  destruct (String.eqb t EmptyString) eqn:E.
  - apply eqb_empty_len in E. split; [ lia | discriminate ].
  - destruct (Z.ltb_spec (GoStrings.len t) 3); [ split; [ lia | discriminate ] | ].
    destruct (Z.ltb_spec 50 (GoStrings.len t)); split; try lia; try discriminate.
    reflexivity.
Qed.

Lemma validatePrice_ok (price : float) :
  Constraint.price_ok price -> entities.validatePrice price = None.
Proof.
  intros [H0 H1]. unfold entities.validatePrice.
  rewrite (leb_true_ltb_false _ _ H0), (leb_true_ltb_false _ _ H1). reflexivity.
Qed.

Lemma validateStock_ok (stock : Z) :
  Constraint.stock_ok stock <-> entities.validateStock stock = None.
Proof.
  unfold Constraint.stock_ok, entities.validateStock.
  destruct (Z.ltb_spec stock 0); split; try lia; try discriminate; reflexivity.
Qed.

Lemma category_check (category : string) :
  Constraint.category_ok category <->
  String.eqb (GoStrings.TrimSpace category) EmptyString = false.
Proof.
  unfold Constraint.category_ok.
  destruct (String.eqb_spec (GoStrings.TrimSpace category) EmptyString);
    split; intros H; try congruence; try reflexivity.
Qed.

(** ** What [TrimSpace] and [ToUpper] return *)

Lemma list_of_append (a b : string) :
  list_ascii_of_string (a ++ b)
  = (list_ascii_of_string a ++ list_ascii_of_string b)%list.
Proof. induction a as [ | c a IH]; simpl; [ reflexivity | rewrite IH; reflexivity ]. Qed.

Lemma string_of_app (l1 l2 : list ascii) :
  string_of_list_ascii (l1 ++ l2) = string_of_list_ascii l1 ++ string_of_list_ascii l2.
Proof. induction l1 as [ | c l1 IH]; simpl; [ reflexivity | rewrite IH; reflexivity ]. Qed.

Lemma rev_involutive (s : string) : GoStrings.rev (GoStrings.rev s) = s.
Proof.
  unfold GoStrings.rev. rewrite list_ascii_of_string_of_list_ascii, List.rev_involutive.
  apply string_of_list_ascii_of_string.
Qed.

Lemma rev_append (a b : string) :
  GoStrings.rev (a ++ b) = GoStrings.rev b ++ GoStrings.rev a.
Proof.
  unfold GoStrings.rev. rewrite list_of_append, List.rev_app_distr. apply string_of_app.
Qed.

Section ScanFacts.

Variable is1 : ascii -> bool.
Variable is2 : ascii -> ascii -> bool.
Variable is3 : ascii -> ascii -> ascii -> bool.

Let skip := GoStrings.skipRunes is1 is2 is3.
Let starts := GoStrings.startsWithRune is1 is2 is3.
Let AllRunes := GoStrings.Runes is1 is2 is3.

(** The scan takes a run of runes of the set off the front and stops where
    no rune of the set begins. *)
Lemma skipRunes_split (n : nat) (s : string) :
  (String.length s <= n)%nat ->
  (exists pre : string, AllRunes pre /\ s = pre ++ skip s)
  /\ starts (skip s) = false.
Proof.
  revert s. induction n as [ | n IH]; intros s Hlen.
  - destruct s; [ | simpl in Hlen; lia ].
    split; [ exists EmptyString; split; [ constructor | reflexivity ] | reflexivity ].
  - destruct s as [ | c1 r1].
    { split; [ exists EmptyString; split; [ constructor | reflexivity ] | reflexivity ]. }
    simpl in Hlen. unfold skip, starts. simpl.
    destruct (is1 c1) eqn:E1.
    { destruct (IH r1 ltac:(lia)) as [(pre & Hp & He) Hs].
      split; [ | exact Hs ].
      exists (String c1 pre). split; [ constructor; assumption | ].
      simpl. f_equal. exact He. }
    destruct r1 as [ | c2 r2].
    { split; [ exists EmptyString; split; [ constructor | reflexivity ] | ].
      simpl. rewrite E1. reflexivity. }
    simpl in Hlen.
    destruct (is2 c1 c2) eqn:E2.
    { destruct (IH r2 ltac:(lia)) as [(pre & Hp & He) Hs].
      split; [ | exact Hs ].
      exists (String c1 (String c2 pre)). split; [ constructor; assumption | ].
      simpl. do 2 f_equal. exact He. }
    destruct r2 as [ | c3 r3].
    { split; [ exists EmptyString; split; [ constructor | reflexivity ] | ].
      simpl. rewrite E1, E2. reflexivity. }
    simpl in Hlen.
    destruct (is3 c1 c2 c3) eqn:E3.
    { destruct (IH r3 ltac:(lia)) as [(pre & Hp & He) Hs].
      split; [ | exact Hs ].
      exists (String c1 (String c2 (String c3 pre))). split; [ constructor; assumption | ].
      simpl. do 3 f_equal. exact He. }
    split; [ exists EmptyString; split; [ constructor | reflexivity ] | ].
    simpl. rewrite E1, E2, E3. reflexivity.
Qed.

(** What begins with a rune of the set still does so with more text behind
    it. *)
Lemma startsWithRune_append (u v : string) :
  starts u = true -> starts (u ++ v) = true.
Proof.
  unfold starts. destruct u as [ | c1 [ | c2 [ | c3 u]]]; simpl;
    try discriminate; intros H.
  - rewrite orb_false_r in H. rewrite H. reflexivity.
  - rewrite orb_false_r in H. destruct (is1 c1); [ reflexivity | ].
    simpl in *. rewrite H. reflexivity.
  - exact H.
Qed.


End ScanFacts.



(** What [TrimSpace] returns neither starts nor ends with white space. *)
Lemma TrimSpace_edges (s : string) :
  GoStrings.leadingSpace (GoStrings.TrimSpace s) = false
  /\ GoStrings.trailingSpace (GoStrings.TrimSpace s) = false.
Proof.
  split.
  - destruct (skipRunes_split GoStrings.asciiSpace GoStrings.space2 GoStrings.space3
                (String.length s) s (le_n _)) as [_ Hl].
    fold GoStrings.trimLeft in Hl.
    set (t := GoStrings.trimLeft s) in *.
    destruct (skipRunes_split GoStrings.asciiSpace
                (fun c1 c2 => GoStrings.space2 c2 c1)
                (fun c1 c2 c3 => GoStrings.space3 c3 c2 c1)
                (String.length (GoStrings.rev t)) (GoStrings.rev t) (le_n _))
      as [(post & _ & Ht) _].
    fold GoStrings.trimLeftRev in Ht.
    destruct (GoStrings.leadingSpace (GoStrings.TrimSpace s)) eqn:E; [ | reflexivity ].
    apply (startsWithRune_append _ _ _ _ (GoStrings.rev post)) in E.
    unfold GoStrings.TrimSpace, GoStrings.trimRight in E. fold t in E.
    rewrite <- rev_append, <- Ht, rev_involutive in E.
    unfold GoStrings.leadingSpace in Hl. congruence.
  - unfold GoStrings.trailingSpace, GoStrings.TrimSpace, GoStrings.trimRight.
    rewrite rev_involutive.
    apply (skipRunes_split GoStrings.asciiSpace
             (fun c1 c2 => GoStrings.space2 c2 c1)
             (fun c1 c2 c3 => GoStrings.space3 c3 c2 c1)
             (String.length (GoStrings.rev (GoStrings.trimLeft s)))
             (GoStrings.rev (GoStrings.trimLeft s)) (le_n _)).
Qed.

(** On a string of ASCII bytes [ToUpper] does not look at the case table: it
    keeps the length and leaves no byte in ['a'..'z']. *)
Lemma ToUpper_ascii {tables : UnicodeTables} (s : string) :
  GoStrings.isASCII s = true ->
  GoStrings.ToUpper s = GoStrings.mapBytes GoStrings.upperByte s
  /\ String.length (GoStrings.ToUpper s) = String.length s
  /\ forall c : ascii,
       List.In c (list_ascii_of_string (GoStrings.ToUpper s)) ->
       ~ (97 <= GoStrings.byte_of c <= 122)%N.
Proof.
  intros H. unfold GoStrings.ToUpper. rewrite H. split; [ reflexivity | ].
  clear H. induction s as [ | a s [IHl IHc]]; simpl.
  - split; [ reflexivity | intros c [] ].
  - split; [ rewrite IHl; reflexivity | ].
    intros c [<- | Hc]; [ | apply IHc; exact Hc ].
    unfold GoStrings.upperByte, GoStrings.byte_of.
    destruct ((97 <=? N_of_ascii a) && (N_of_ascii a <=? 122))%N eqn:E.
    + apply andb_prop in E. destruct E as [E1 E2].
      apply N.leb_le in E1. apply N.leb_le in E2.
      rewrite N_ascii_embedding by lia. lia.
    + intros [H1 H2]. apply N.leb_le in H1. apply N.leb_le in H2.
      rewrite H1, H2 in E. discriminate E.
Qed.

(** ** The entity *)









(** X24.  The name, the description, the category and the brand of a new
    Product start and end with no white space. *)
Lemma NewProduct_fields_trimmed {tables : UnicodeTables} (now : Time)
    (name description sku category brand : string) (price : float) (stock : Z)
    (p : entities.Product) :
  entities.NewProduct now name description sku category brand price stock = Ok p ->
  List.Forall
    (fun field : string =>
       GoStrings.leadingSpace field = false /\ GoStrings.trailingSpace field = false)
    [entities.Name p; entities.Description p; entities.Category p; entities.Brand p].
Proof.
  unfold entities.NewProduct.
  destruct (entities.validateProductName name); [ discriminate | ].
  destruct (entities.validateSKU sku); [ discriminate | ].
  destruct (entities.validatePrice price); [ discriminate | ].
  destruct (entities.validateStock stock); [ discriminate | ].
  destruct (String.eqb (GoStrings.TrimSpace category) EmptyString); [ discriminate | ].
  intros H. injection H as <-. simpl.
  repeat constructor; apply TrimSpace_edges.
Qed.

(** C3.  A negative stock passed to [UpdateStock] and a negative price passed
    to [UpdatePrice] are refused with an error, and the entity comes back as
    it was: stock, price, status, updated-at and every other field. *)
Theorem negative_update_leaves_entity (now : Time) (p : entities.Product) :
  (forall quantity : Z,
      quantity < 0 ->
      entities.UpdateStock now quantity p
      = (p, Some (errorString "stock quantity cannot be negative")))
  /\ (forall price : float,
         (price <? 0)%float = true ->
         entities.UpdatePrice now price p
         = (p, Some (errorString "price cannot be negative"))).
Proof.
  split.
  - intros quantity H. unfold entities.UpdateStock.
    destruct (Z.ltb_spec quantity 0); [ reflexivity | lia ].
  - intros price H. unfold entities.UpdatePrice. rewrite H. reflexivity.
Qed.

Lemma negative_update_leaves_entity_witness :
  entities.UpdateStock 1700000001 (-5) Sample.iphone
  = (Sample.iphone, Some (errorString "stock quantity cannot be negative"))
  /\ entities.UpdatePrice 1700000001 (-50)%float Sample.iphone
     = (Sample.iphone, Some (errorString "price cannot be negative")).
Proof.
  destruct (negative_update_leaves_entity 1700000001 Sample.iphone) as [Hs Hp].
  split.
  - apply Hs. lia.
  - apply Hp. vm_compute. reflexivity.
Defined.

(** C4.  [ReduceStock(amount)]: an amount that is zero or negative is refused
    as an invalid quantity; an amount above the stock is refused as
    insufficient stock (so [ReduceStock(10)] on a stock of 5 fails and the
    stock stays 5); any other amount is taken off the stock and updated-at
    becomes the clock reading of the call.  A refused call leaves the entity
    as it was. *)
Theorem ReduceStock_cases (now : Time) (amount : Z) (p : entities.Product) :
  GoInt.is_int (entities.Stock p) ->
  (amount <= 0 ->
   entities.ReduceStock now amount p
   = (p, Some (errorString "reduction quantity must be positive")))
  /\ (entities.Stock p < amount ->
      0 < amount \/ 0 <= entities.Stock p ->
      entities.ReduceStock now amount p = (p, Some (errorString "insufficient stock")))
  /\ (entities.Stock p = 5 ->
      amount = 10 ->
      entities.ReduceStock now amount p = (p, Some (errorString "insufficient stock"))
      /\ entities.Stock (fst (entities.ReduceStock now amount p)) = 5)
  /\ (0 < amount <= entities.Stock p ->
      entities.ReduceStock now amount p
      = (entities.mkProduct (entities.ID p) (entities.Name p) (entities.Description p)
           (entities.SKU p) (entities.Price p) (entities.Category p) (entities.Brand p)
           (entities.Stock p - amount) (entities.Status p) (entities.CreatedAt p) now,
         None)).
Proof.
  intros Hs. unfold entities.ReduceStock.
  repeat split.
  - intros H. destruct (Z.leb_spec amount 0); [ reflexivity | lia ].
  - intros H1 H2. destruct (Z.leb_spec amount 0); [ lia | ].
    destruct (Z.ltb_spec (entities.Stock p) amount); [ reflexivity | lia ].
  - destruct (Z.leb_spec amount 0); [ lia | ].
    destruct (Z.ltb_spec (entities.Stock p) amount); [ reflexivity | lia ].
  - destruct (Z.leb_spec amount 0); [ lia | ].
    destruct (Z.ltb_spec (entities.Stock p) amount); [ simpl; assumption | lia ].
  - intros H. destruct (Z.leb_spec amount 0); [ lia | ].
    destruct (Z.ltb_spec (entities.Stock p) amount); [ lia | ].
    unfold entities.setStock, GoInt.sub. rewrite wrap_is_int; [ reflexivity | ].
    unfold GoInt.is_int, GoInt.minInt, GoInt.maxInt in *. lia.
Qed.

Lemma ReduceStock_cases_witness :
  entities.ReduceStock 1700000001 0 Sample.fiveInStock
  = (Sample.fiveInStock, Some (errorString "reduction quantity must be positive"))
  /\ (entities.ReduceStock 1700000001 10 Sample.fiveInStock
      = (Sample.fiveInStock, Some (errorString "insufficient stock"))
      /\ entities.Stock (fst (entities.ReduceStock 1700000001 10 Sample.fiveInStock)) = 5)
  /\ entities.ReduceStock 1700000001 3 Sample.fiveInStock
     = (entities.mkProduct 7%N "USB cable" "One metre" "USB-C-1M" 4.5%float
          "Accessories" "Acme" (5 - 3) entities.ProductStatusActive
          1700000000 1700000001,
        None).
Proof.
  assert (Hs : GoInt.is_int (entities.Stock Sample.fiveInStock))
    by (vm_compute; split; discriminate).
  split; [ | split ].
  - apply (ReduceStock_cases 1700000001 0 Sample.fiveInStock Hs). lia.
  - apply (ReduceStock_cases 1700000001 10 Sample.fiveInStock Hs); reflexivity.
  - apply (ReduceStock_cases 1700000001 3 Sample.fiveInStock Hs).
    simpl. lia.
Defined.

(** C5.  [ReduceStock(n)] and then [AddStock(n)] on the same entity, for an
    [n] that does not exceed the stock, leave the stock at its first value. *)
Theorem ReduceStock_AddStock_restores (now1 now2 : Time) (n : Z) (p : entities.Product) :
  GoInt.is_int (entities.Stock p) ->
  n <= entities.Stock p ->
  entities.Stock
    (fst (entities.AddStock now2 n (fst (entities.ReduceStock now1 n p))))
  = entities.Stock p.
Proof.
  intros Hs Hn. unfold entities.ReduceStock, entities.AddStock.
  destruct (Z.leb_spec n 0) as [Hle | Hlt]; simpl.
  - destruct (Z.leb_spec n 0); [ reflexivity | lia ].
  - destruct (Z.ltb_spec (entities.Stock p) n); [ lia | ]. simpl.
    destruct (Z.leb_spec n 0); [ lia | ]. simpl.
    unfold GoInt.add, GoInt.sub.
    unfold GoInt.is_int, GoInt.minInt, GoInt.maxInt in Hs.
    rewrite (wrap_is_int (entities.Stock p - n))
      by (unfold GoInt.is_int, GoInt.minInt, GoInt.maxInt; lia).
    rewrite wrap_is_int
      by (unfold GoInt.is_int, GoInt.minInt, GoInt.maxInt; lia).
    lia.
Qed.

Lemma ReduceStock_AddStock_restores_witness :
  entities.Stock
    (fst (entities.AddStock 1700000002 3
            (fst (entities.ReduceStock 1700000001 3 Sample.fiveInStock))))
  = entities.Stock Sample.fiveInStock.
Proof.
  apply ReduceStock_AddStock_restores.
  - vm_compute. split; discriminate.
  - vm_compute. discriminate.
Defined.

(** ** The order of the factory's checks *)

Lemma SFcompare_None (x y : spec_float) :
  SFcompare x y = None <-> x = S754_nan \/ y = S754_nan.
Proof.
  destruct x as [sx | sx | | sx mx ex], y as [sy | sy | | sy my ey]; simpl;
    split; intros H; try discriminate H; try (left; reflexivity);
    try (right; reflexivity); try reflexivity;
    destruct H as [H | H]; discriminate H.
Qed.

(** A float that equals itself is not a NaN. *)
Lemma self_equal_not_nan (x : float) :
  (x =? x)%float = true -> Prim2SF x <> S754_nan.
Proof.
  rewrite eqb_spec. unfold SFeqb. intros H E. rewrite E in H. discriminate H.
Qed.






(** ** The price bound *)

(** [UpdatePrice] has one check: any price that is not below zero is taken,
    whatever its size. *)
Lemma UpdatePrice_takes_any_price (now : Time) (price : float) (p : entities.Product) :
  (price <? 0)%float = false ->
  entities.UpdatePrice now price p = (entities.setPrice price now p, None).
Proof. intros H. unfold entities.UpdatePrice. rewrite H. reflexivity. Qed.

(** No other operation of the entity writes the price. *)
Lemma other_operations_keep_price (now : Time) (quantity : Z) (p : entities.Product) :
  entities.Price (entities.Activate now p) = entities.Price p
  /\ entities.Price (entities.Deactivate now p) = entities.Price p
  /\ entities.Price (entities.Discontinue now p) = entities.Price p
  /\ entities.Price (fst (entities.UpdateStock now quantity p)) = entities.Price p
  /\ entities.Price (fst (entities.ReduceStock now quantity p)) = entities.Price p
  /\ entities.Price (fst (entities.AddStock now quantity p)) = entities.Price p.
Proof.
  unfold entities.UpdateStock, entities.ReduceStock, entities.AddStock.
  repeat split;
    repeat match goal with
           | |- context [if ?b then _ else _] => destruct b
           end; reflexivity.
Qed.

(** X25.  The lower bound does hold after [UpdatePrice]: when the call
    returns no error, for a price that is a number, the entity's price is not
    below zero. *)
Lemma UpdatePrice_lower_bound (now : Time) (price : float) (p : entities.Product) :
  (price =? price)%float = true ->
  snd (entities.UpdatePrice now price p) = None ->
  (0 <=? entities.Price (fst (entities.UpdatePrice now price p)))%float = true.
Proof.
  intros Hnum. unfold entities.UpdatePrice.
  destruct (price <? 0)%float eqn:E; simpl; [ discriminate | intros _ ].
  apply ltb_false_leb_true; [ | exact E ].
  intros N. apply SFcompare_None in N. destruct N as [N | N].
  - vm_compute in N. discriminate N.
  - apply self_equal_not_nan in Hnum. contradiction.
Qed.

(** C9.  The code at a failing input: on a product made by the factory with
    a price of 100, [UpdatePrice(1000000)] returns no error and the price
    becomes 1000000, which is above 999999.99. *)
Theorem UpdatePrice_exceeds_maximum :
  exists p : entities.Product,
    entities.NewProduct (tables := asciiOnly) 1700000000
      "Product Name" "Description" "SKU123" "Category" "Brand" 100%float 10 = Ok p
    /\ Constraint.price_ok (entities.Price p)
    /\ snd (entities.UpdatePrice 1700000001 1000000%float p) = None
    /\ entities.Price (fst (entities.UpdatePrice 1700000001 1000000%float p))
       = 1000000%float
    /\ PrimFloat.leb
         (entities.Price (fst (entities.UpdatePrice 1700000001 1000000%float p)))
         entities.maxPrice = false
    /\ ~ Constraint.price_ok
           (entities.Price (fst (entities.UpdatePrice 1700000001 1000000%float p))).
Proof.
  eexists. split; [ vm_compute; reflexivity | ].
  split; [ split; vm_compute; reflexivity | ].
  split; [ reflexivity | ].
  split; [ reflexivity | ].
  split; [ vm_compute; reflexivity | ].
  intros [_ H]. vm_compute in H. discriminate H.
Qed.

(** ** The use cases *)

Lemma callsSince_app {S : Type} (w : World S) (s : S) (n : nat) (new : list PortCall) :
  callsSince w (mkWorld s (calls w ++ new) n) = new.
Proof.
  unfold callsSince. simpl.
  rewrite List.skipn_app, List.skipn_all, Nat.sub_diag. reflexivity.
Qed.


Lemma NewProduct_SKU {tables : UnicodeTables} (now : Time)
    (name description sku category brand : string) (price : float) (stock : Z)
    (p : entities.Product) :
  entities.NewProduct now name description sku category brand price stock = Ok p ->
  entities.SKU p = GoStrings.ToUpper (GoStrings.TrimSpace sku).
Proof.
  unfold entities.NewProduct.
  destruct (entities.validateProductName name); [ discriminate | ].
  destruct (entities.validateSKU sku); [ discriminate | ].
  destruct (entities.validatePrice price); [ discriminate | ].
  destruct (entities.validateStock stock); [ discriminate | ].
  destruct (String.eqb (GoStrings.TrimSpace category) EmptyString); [ discriminate | ].
  intros H. injection H as <-. reflexivity.
Qed.

Section CreateProductRuns.

Context {S : Type} {tables : UnicodeTables}.
Variable repo : ports.ProductRepository S.
Variable clock : nat -> Time.
Variable request : dto.CreateProductRequestDTO.t.
Variable w : World S.

Let sku : string := dto.CreateProductRequestDTO.SKU request.
Let out : result dto.ProductResponseDTO.t * World S :=
  usecases.CreateProduct repo clock request w.





End CreateProductRuns.








(** [UpdateProduct] turns to the port once, to load the entity.  The store is
    left as that call left it, whatever the request changes. *)
Lemma UpdateProduct_only_loads {S : Type} (repo : ports.ProductRepository S)
    (clock : nat -> Time) (id : N) (request : dto.UpdateProductRequestDTO.t)
    (w : World S) :
  let out := usecases.UpdateProduct repo clock id request w in
  calls (snd out) = (calls w ++ [CallGetByID id])%list
  /\ store (snd out) = snd (ports.GetByID repo id (store w)).
Proof.
  unfold usecases.UpdateProduct, bind, usecases.repoGetByID, usecases.portCall,
    usecases.timeNow, ret.
  destruct (ports.GetByID repo id (store w)) as [[existing | err] s1]; cbn;
    [ | split; reflexivity ].
  destruct (dto.UpdateProductRequestDTO.Price request) as [price | ]; cbn.
  - match goal with
    | |- context [entities.UpdatePrice ?n ?x ?q] =>
        destruct (entities.UpdatePrice n x q) as [p5 [e5 | ]]
    end; cbn; [ split; reflexivity | ].
    destruct (dto.UpdateProductRequestDTO.Stock request) as [stock | ]; cbn;
      [ | split; reflexivity ].
    match goal with
    | |- context [entities.UpdateStock ?n ?x ?q] =>
        destruct (entities.UpdateStock n x q) as [p6 [e6 | ]]
    end; cbn; split; reflexivity.
  - destruct (dto.UpdateProductRequestDTO.Stock request) as [stock | ]; cbn;
      [ | split; reflexivity ].
    match goal with
    | |- context [entities.UpdateStock ?n ?x ?q] =>
        destruct (entities.UpdateStock n x q) as [p6 [e6 | ]]
    end; cbn; split; reflexivity.
Qed.

(** C7.  The code at a failing input: a table that holds the product with
    id 1 under the name "iPhone 15", and a request that renames it.
    [UpdateProduct] returns the projection with the new name; the only call
    the port has received is the load; the table is what it was, and a load
    after the return still gives the old name. *)
Theorem UpdateProduct_returns_without_saving :
  let out :=
    usecases.UpdateProduct product_repository.NewGormProductRepository
      Sample.clock 1%N Sample.rename (Sample.world Sample.oneRow) in
  (exists d : dto.ProductResponseDTO.t,
      fst out = Ok d /\ dto.ProductResponseDTO.Name d = "iPhone 15 Pro")
  /\ calls (snd out) = [CallGetByID 1%N]
  /\ store (snd out) = Sample.oneRow
  /\ (exists stored : entities.Product,
         fst (ports.GetByID product_repository.NewGormProductRepository 1%N
                (store (snd out)))
         = Ok stored
         /\ entities.Name stored = "iPhone 15").
Proof.
  cbv zeta. split; [ | split; [ | split ] ].
  - eexists. split; [ vm_compute; reflexivity | reflexivity ].
  - vm_compute. reflexivity.
  - vm_compute. reflexivity.
  - eexists. split; [ vm_compute; reflexivity | reflexivity ].
Qed.

(** C8.  What [ListProducts] does: it brings the page to 0 when negative and
    the page size to 10 when outside 1..100, makes no call to the port, and
    returns these two numbers with a total of 0 and no projection at all.
    At a failing input, a table that holds a product, the answer is the
    same empty page. *)
Theorem ListProducts_returns_empty_page :
  (forall (S : Type) (page pageSize : Z) (w : World S),
      usecases.ListProducts page pageSize w
      = (Ok (dto.ProductListResponseDTO.mk []
               0
               (if page <? 0 then 0 else page)
               (if (pageSize <? 1) || (100 <? pageSize) then 10 else pageSize)),
         w))
  /\ (exists stored : entities.Product,
         fst (ports.GetByID product_repository.NewGormProductRepository 1%N
                Sample.oneRow) = Ok stored)
  /\ usecases.ListProducts 0 10 (Sample.world Sample.oneRow)
     = (Ok (dto.ProductListResponseDTO.mk [] 0 0 10), Sample.world Sample.oneRow)
  /\ usecases.ListProducts (-1) 500 (Sample.world Sample.oneRow)
     = (Ok (dto.ProductListResponseDTO.mk [] 0 0 10), Sample.world Sample.oneRow).
Proof.
  split; [ | split; [ | split ] ].
  - intros S page pageSize w. reflexivity.
  - eexists. vm_compute. reflexivity.
  - reflexivity.
  - reflexivity.
Qed.

(** X23.  The bounds [ListProducts] answers with: a page that is not negative
    and a page size between 1 and 100, the supplied values when they are in
    range, page 0 and size 10 in place of those that are not. *)
Lemma ListProducts_bounds {S : Type} (page pageSize : Z) (w : World S) :
  exists l : dto.ProductListResponseDTO.t,
    fst (usecases.ListProducts page pageSize w) = Ok l
    /\ 0 <= dto.ProductListResponseDTO.Page l
    /\ 1 <= dto.ProductListResponseDTO.PageSize l <= 100
    /\ (0 <= page -> dto.ProductListResponseDTO.Page l = page)
    /\ (page < 0 -> dto.ProductListResponseDTO.Page l = 0)
    /\ (1 <= pageSize <= 100 -> dto.ProductListResponseDTO.PageSize l = pageSize)
    /\ (pageSize < 1 \/ 100 < pageSize -> dto.ProductListResponseDTO.PageSize l = 10).
Proof.
  eexists. split; [ reflexivity | ]. cbn.
  destruct (Z.ltb_spec page 0), (Z.ltb_spec pageSize 1), (Z.ltb_spec 100 pageSize);
    cbn; repeat split; intros; lia.
Qed.

(** * Further properties *)

(** ** The entity's operations *)

(** X1.  Every mutating operation is all or nothing: a call that returns an
    error leaves the entity as it was, in every field, and a call that
    returns none stamps updated-at with the call's clock reading and keeps
    created-at. *)
Theorem operation_all_or_nothing (now : Time) (op : entities.Operation)
    (p : entities.Product) :
  (snd (entities.apply now op p) <> None -> fst (entities.apply now op p) = p)
  /\ (snd (entities.apply now op p) = None ->
      entities.UpdatedAt (fst (entities.apply now op p)) = now
      /\ entities.CreatedAt (fst (entities.apply now op p)) = entities.CreatedAt p).
Proof.
  destruct op; simpl;
    unfold entities.UpdateStock, entities.ReduceStock, entities.AddStock,
      entities.UpdatePrice;
    repeat match goal with
           | |- context [if ?b then _ else _] => destruct b
           end; simpl; split; intros H; try reflexivity; try congruence;
    try (split; reflexivity).
Qed.

Lemma operation_all_or_nothing_witness :
  fst (entities.apply 1700000009 (entities.OpReduceStock 10) Sample.fiveInStock)
  = Sample.fiveInStock
  /\ entities.UpdatedAt
       (fst (entities.apply 1700000009 (entities.OpReduceStock 2) Sample.fiveInStock))
     = 1700000009.
Proof.
  split.
  - apply (operation_all_or_nothing 1700000009 (entities.OpReduceStock 10)
             Sample.fiveInStock).
    vm_compute. discriminate.
  - apply (operation_all_or_nothing 1700000009 (entities.OpReduceStock 2)
             Sample.fiveInStock).
    vm_compute. reflexivity.
Defined.

Lemma apply_keeps_identity (now : Time) (op : entities.Operation) (p : entities.Product) :
  let q := fst (entities.apply now op p) in
  entities.ID q = entities.ID p
  /\ entities.Name q = entities.Name p
  /\ entities.Description q = entities.Description p
  /\ entities.SKU q = entities.SKU p
  /\ entities.Category q = entities.Category p
  /\ entities.Brand q = entities.Brand p
  /\ entities.CreatedAt q = entities.CreatedAt p.
Proof.
  destruct op; simpl;
    unfold entities.UpdateStock, entities.ReduceStock, entities.AddStock,
      entities.UpdatePrice;
    repeat match goal with
           | |- context [if ?b then _ else _] => destruct b
           end; simpl; repeat split; reflexivity.
Qed.

(** X2.  No sequence of the entity's operations, failed calls included,
    changes the id, the name, the description, the SKU, the category, the
    brand or created-at. *)
Theorem operations_keep_identity (clock : nat -> Time) (ops : list entities.Operation) :
  forall (n : nat) (p : entities.Product),
    let q := entities.applyAll clock n ops p in
    entities.ID q = entities.ID p
    /\ entities.Name q = entities.Name p
    /\ entities.Description q = entities.Description p
    /\ entities.SKU q = entities.SKU p
    /\ entities.Category q = entities.Category p
    /\ entities.Brand q = entities.Brand p
    /\ entities.CreatedAt q = entities.CreatedAt p.
Proof.
  induction ops as [ | op rest IH]; intros n p; simpl.
  - repeat split; reflexivity.
  - destruct (IH (S n) (fst (entities.apply (clock n) op p)))
      as (H1 & H2 & H3 & H4 & H5 & H6 & H7).
    destruct (apply_keeps_identity (clock n) op p)
      as (G1 & G2 & G3 & G4 & G5 & G6 & G7).
    repeat split; etransitivity; eassumption.
Qed.

(** X3.  Stock that is not negative stays so under every operation, as long as
    an addition does not carry it past the largest [int]. *)
Theorem operation_keeps_stock_nonnegative (now : Time) (op : entities.Operation)
    (p : entities.Product) :
  0 <= entities.Stock p ->
  GoInt.is_int (entities.Stock p) ->
  (forall quantity : Z,
      op = entities.OpAddStock quantity -> entities.Stock p + quantity <= GoInt.maxInt) ->
  0 <= entities.Stock (fst (entities.apply now op p)).
Proof.
  intros H0 Hint Hadd.
  unfold GoInt.is_int, GoInt.minInt, GoInt.maxInt in *.
  destruct op; simpl; try assumption.
  - unfold entities.UpdateStock. destruct (Z.ltb_spec quantity 0); simpl; lia.
  - unfold entities.ReduceStock. destruct (Z.leb_spec quantity 0); simpl; [ lia | ].
    destruct (Z.ltb_spec (entities.Stock p) quantity); simpl; [ lia | ].
    unfold GoInt.sub. rewrite wrap_is_int; [ lia | ].
    unfold GoInt.is_int, GoInt.minInt, GoInt.maxInt. lia.
  - unfold entities.AddStock. destruct (Z.leb_spec quantity 0); simpl; [ lia | ].
    specialize (Hadd quantity eq_refl).
    unfold GoInt.add. rewrite wrap_is_int; [ lia | ].
    unfold GoInt.is_int, GoInt.minInt, GoInt.maxInt. lia.
  - unfold entities.UpdatePrice. destruct (price <? 0)%float; simpl; assumption.
Qed.

Lemma operation_keeps_stock_nonnegative_witness :
  0 <= entities.Stock
         (fst (entities.apply 1700000009 (entities.OpAddStock 7) Sample.fiveInStock)).
Proof.
  apply operation_keeps_stock_nonnegative.
  - vm_compute. discriminate.
  - vm_compute. split; discriminate.
  - intros quantity E. injection E as <-. vm_compute. discriminate.
Defined.

(** X4.  [AddStock] has no guard against overflow: an addition that carries
    the stock past the largest [int] returns no error and leaves a negative
    stock, the sum less 2^64. *)
Theorem AddStock_wraps_around (now : Time) (quantity : Z) (p : entities.Product) :
  GoInt.is_int (entities.Stock p) ->
  GoInt.is_int quantity ->
  0 < quantity ->
  GoInt.maxInt < entities.Stock p + quantity ->
  snd (entities.AddStock now quantity p) = None
  /\ entities.Stock (fst (entities.AddStock now quantity p))
     = entities.Stock p + quantity - 2 ^ 64
  /\ entities.Stock (fst (entities.AddStock now quantity p)) < 0.
Proof.
  intros Hs Hq Hpos Hover.
  unfold GoInt.is_int, GoInt.minInt, GoInt.maxInt in *.
  unfold entities.AddStock. destruct (Z.leb_spec quantity 0); [ lia | ]. simpl.
  assert (E : GoInt.add (entities.Stock p) quantity = entities.Stock p + quantity - 2 ^ 64).
  { unfold GoInt.add, GoInt.wrap.
    replace (entities.Stock p + quantity + 2 ^ 63)
      with (entities.Stock p + quantity - 2 ^ 63 + 1 * 2 ^ 64) by lia.
    rewrite Z.mod_add by lia. rewrite Z.mod_small by lia. lia. }
  rewrite E. repeat split; lia.
Qed.

Lemma AddStock_wraps_around_witness :
  snd (entities.AddStock 1700000009 GoInt.maxInt Sample.fiveInStock) = None
  /\ entities.Stock (fst (entities.AddStock 1700000009 GoInt.maxInt Sample.fiveInStock))
     = entities.Stock Sample.fiveInStock + GoInt.maxInt - 2 ^ 64
  /\ entities.Stock (fst (entities.AddStock 1700000009 GoInt.maxInt Sample.fiveInStock))
     < 0.
Proof.
  apply AddStock_wraps_around.
  - vm_compute. split; discriminate.
  - vm_compute. split; discriminate.
  - vm_compute. reflexivity.
  - vm_compute. reflexivity.
Defined.

(** X5.  [AddStock(n)] and then [ReduceStock(n)] on a stock that is not
    negative, for an addition that does not overflow, leave the stock at its
    first value, whether the two calls are taken or, for [n <= 0], both
    refused. *)
Theorem AddStock_ReduceStock_restores (now1 now2 : Time) (n : Z) (p : entities.Product) :
  0 <= entities.Stock p ->
  entities.Stock p + n <= GoInt.maxInt ->
  entities.Stock
    (fst (entities.ReduceStock now2 n (fst (entities.AddStock now1 n p))))
  = entities.Stock p.
Proof.
  intros H0 Hadd. unfold GoInt.maxInt in Hadd.
  unfold entities.AddStock, entities.ReduceStock.
  destruct (Z.leb_spec n 0) as [Hle | Hlt]; simpl.
  - destruct (Z.leb_spec n 0); [ reflexivity | lia ].
  - destruct (Z.leb_spec n 0); [ lia | ].
    unfold GoInt.add, GoInt.sub.
    rewrite (wrap_is_int (entities.Stock p + n))
      by (unfold GoInt.is_int, GoInt.minInt, GoInt.maxInt; lia).
    destruct (Z.ltb_spec (entities.Stock p + n) n); [ lia | ]. simpl.
    rewrite wrap_is_int by (unfold GoInt.is_int, GoInt.minInt, GoInt.maxInt; lia).
    lia.
Qed.

Lemma AddStock_ReduceStock_restores_witness :
  entities.Stock
    (fst (entities.ReduceStock 1700000002 40
            (fst (entities.AddStock 1700000001 40 Sample.fiveInStock))))
  = entities.Stock Sample.fiveInStock.
Proof.
  apply AddStock_ReduceStock_restores; vm_compute; discriminate.
Defined.

(** X6.  A product is available exactly when its status is the active one
    and its stock is above zero.  Deactivating or discontinuing makes it
    unavailable whatever the stock; activating makes it available exactly
    when it is in stock; taking the whole stock off makes it unavailable. *)
Theorem availability (now : Time) (p : entities.Product) :
  (entities.IsAvailable p = true <->
   entities.Status p = entities.ProductStatusActive /\ 0 < entities.Stock p)
  /\ entities.IsAvailable (entities.Deactivate now p) = false
  /\ entities.IsAvailable (entities.Discontinue now p) = false
  /\ entities.IsAvailable (entities.Activate now p) = entities.IsInStock p
  /\ (0 < entities.Stock p ->
      snd (entities.ReduceStock now (entities.Stock p) p) = None
      /\ entities.IsAvailable (fst (entities.ReduceStock now (entities.Stock p) p))
         = false).
Proof.
  unfold entities.IsAvailable, entities.IsActive, entities.IsInStock.
  split; [ | split; [ | split; [ | split ] ] ].
  - rewrite andb_true_iff, String.eqb_eq, Z.ltb_lt. reflexivity.
  - reflexivity.
  - reflexivity.
  - reflexivity.
  - intros Hpos. unfold entities.ReduceStock.
    destruct (Z.leb_spec (entities.Stock p) 0); [ lia | ].
    rewrite Z.ltb_irrefl. simpl. split; [ reflexivity | ].
    unfold GoInt.sub. rewrite Z.sub_diag.
    rewrite andb_false_r. reflexivity.
Qed.

Lemma availability_witness :
  snd (entities.ReduceStock 1700000009 5 Sample.fiveInStock) = None
  /\ entities.IsAvailable (fst (entities.ReduceStock 1700000009 5 Sample.fiveInStock))
     = false.
Proof.
  apply (availability 1700000009 Sample.fiveInStock).
  vm_compute. reflexivity.
Defined.

(** ** The factory's normal form *)

(** Where no rune of the set begins, the scan drops nothing. *)
Lemma skipRunes_fixed (is1 : ascii -> bool) (is2 : ascii -> ascii -> bool)
    (is3 : ascii -> ascii -> ascii -> bool) (s : string) :
  GoStrings.startsWithRune is1 is2 is3 s = false ->
  GoStrings.skipRunes is1 is2 is3 s = s.
Proof.
  destruct s as [ | c1 [ | c2 [ | c3 s]]]; simpl; intros H; try reflexivity.
  - rewrite orb_false_r in H. rewrite H. reflexivity.
  - apply orb_false_elim in H. destruct H as [H1 H2].
    rewrite orb_false_r in H2. rewrite H1, H2. reflexivity.
  - apply orb_false_elim in H. destruct H as [H1 H2].
    apply orb_false_elim in H2. destruct H2 as [H2 H3].
    rewrite H1, H2, H3. reflexivity.
Qed.

Lemma TrimSpace_fixed (s : string) :
  GoStrings.leadingSpace s = false ->
  GoStrings.trailingSpace s = false ->
  GoStrings.TrimSpace s = s.
Proof.
  intros Hl Ht. unfold GoStrings.TrimSpace, GoStrings.trimRight, GoStrings.trimLeft,
    GoStrings.trimLeftRev.
  rewrite (skipRunes_fixed _ _ _ s Hl).
  rewrite (skipRunes_fixed _ _ _ (GoStrings.rev s) Ht).
  apply rev_involutive.
Qed.

(** Trimming what is trimmed changes nothing. *)
Lemma TrimSpace_idempotent (s : string) :
  GoStrings.TrimSpace (GoStrings.TrimSpace s) = GoStrings.TrimSpace s.
Proof.
  destruct (TrimSpace_edges s) as [Hl Ht]. apply TrimSpace_fixed; assumption.
Qed.

Lemma list_of_mapBytes (f : ascii -> ascii) (s : string) :
  list_ascii_of_string (GoStrings.mapBytes f s) = List.map f (list_ascii_of_string s).
Proof. induction s as [ | c s IH]; simpl; [ reflexivity | rewrite IH; reflexivity ]. Qed.

Lemma mapBytes_of_list (f : ascii -> ascii) (l : list ascii) :
  GoStrings.mapBytes f (string_of_list_ascii l) = string_of_list_ascii (List.map f l).
Proof. induction l as [ | c l IH]; simpl; [ reflexivity | rewrite IH; reflexivity ]. Qed.

Lemma rev_mapBytes (f : ascii -> ascii) (s : string) :
  GoStrings.rev (GoStrings.mapBytes f s) = GoStrings.mapBytes f (GoStrings.rev s).
Proof.
  unfold GoStrings.rev. rewrite list_of_mapBytes, mapBytes_of_list, List.map_rev.
  reflexivity.
Qed.

Lemma length_mapBytes (f : ascii -> ascii) (s : string) :
  String.length (GoStrings.mapBytes f s) = String.length s.
Proof. induction s as [ | c s IH]; simpl; [ reflexivity | rewrite IH; reflexivity ]. Qed.

Lemma isASCII_rev (s : string) :
  GoStrings.isASCII s = true -> GoStrings.isASCII (GoStrings.rev s) = true.
Proof.
  unfold GoStrings.isASCII, GoStrings.rev. intros H.
  rewrite list_ascii_of_string_of_list_ascii.
  rewrite List.forallb_forall in *. intros c Hc. apply H.
  apply List.in_rev. exact Hc.
Qed.

Lemma upperByte_range (c : ascii) :
  (GoStrings.byte_of c < 128)%N ->
  (GoStrings.byte_of (GoStrings.upperByte c) < 128)%N
  /\ GoStrings.asciiSpace (GoStrings.upperByte c) = GoStrings.asciiSpace c
  /\ GoStrings.upperByte (GoStrings.upperByte c) = GoStrings.upperByte c.
Proof.
  intros Hc. unfold GoStrings.byte_of in Hc.
  assert (Hu : GoStrings.upperByte c
               = if ((97 <=? N_of_ascii c) && (N_of_ascii c <=? 122))%N
                 then ascii_of_N (N_of_ascii c - 32) else c) by reflexivity.
  destruct ((97 <=? N_of_ascii c) && (N_of_ascii c <=? 122))%N eqn:E.
  - apply andb_prop in E. destruct E as [E1 E2].
    apply N.leb_le in E1. apply N.leb_le in E2.
    assert (Hb : N_of_ascii (ascii_of_N (N_of_ascii c - 32)) = (N_of_ascii c - 32)%N)
      by (apply N_ascii_embedding; lia).
    rewrite Hu. split; [ unfold GoStrings.byte_of; rewrite Hb; lia | ]. split.
    + unfold GoStrings.asciiSpace, GoStrings.byte_of. rewrite Hb.
      repeat match goal with
             | |- context [(?a <=? ?b)%N] => destruct (N.leb_spec a b)
             | |- context [(?a =? ?b)%N] => destruct (N.eqb_spec a b)
             end; simpl; try reflexivity; lia.
    + unfold GoStrings.upperByte, GoStrings.byte_of. rewrite Hb.
      destruct (N.leb_spec 97 (N_of_ascii c - 32)); [ lia | reflexivity ].
  - rewrite Hu. split; [ exact Hc | ]. split; [ reflexivity | exact Hu ].
Qed.

Lemma isASCII_cons (c : ascii) (s : string) :
  GoStrings.isASCII (String c s) = true <->
  (GoStrings.byte_of c < 128)%N /\ GoStrings.isASCII s = true.
Proof.
  unfold GoStrings.isASCII. simpl. rewrite andb_true_iff.
  unfold GoStrings.RuneSelf. rewrite N.ltb_lt. reflexivity.
Qed.

Lemma isASCII_upper (s : string) :
  GoStrings.isASCII s = true ->
  GoStrings.isASCII (GoStrings.mapBytes GoStrings.upperByte s) = true
  /\ GoStrings.mapBytes GoStrings.upperByte (GoStrings.mapBytes GoStrings.upperByte s)
     = GoStrings.mapBytes GoStrings.upperByte s.
Proof.
  induction s as [ | c s IH]; intros H; simpl.
  - split; reflexivity.
  - apply isASCII_cons in H. destruct H as [Hc Hs].
    destruct (IH Hs) as [IH1 IH2].
    destruct (upperByte_range c Hc) as (U1 & _ & U3).
    split; [ apply isASCII_cons; split; assumption | ].
    rewrite U3, IH2. reflexivity.
Qed.

(** A multi-byte white-space rune begins with a byte outside ASCII and ends
    with one. *)
Lemma space_bytes_not_ascii (c1 c2 c3 : ascii) :
  (GoStrings.space2 c1 c2 = true ->
   (128 <= GoStrings.byte_of c1)%N /\ (128 <= GoStrings.byte_of c2)%N)
  /\ (GoStrings.space3 c1 c2 c3 = true ->
      (128 <= GoStrings.byte_of c1)%N /\ (128 <= GoStrings.byte_of c3)%N).
Proof.
  unfold GoStrings.space2, GoStrings.space3. split; intros H;
    repeat match type of H with
           | context [(?a =? ?b)%N] => destruct (N.eqb_spec a b)
           | context [(?a <=? ?b)%N] => destruct (N.leb_spec a b)
           end; simpl in H; try discriminate H; lia.
Qed.

(** On ASCII text a scan for white space looks at one byte, in either
    direction. *)
Lemma ascii_starts (s : string) :
  GoStrings.isASCII s = true ->
  GoStrings.leadingSpace s
  = match s with EmptyString => false | String c _ => GoStrings.asciiSpace c end
  /\ GoStrings.startsWithRune GoStrings.asciiSpace
       (fun c1 c2 => GoStrings.space2 c2 c1)
       (fun c1 c2 c3 => GoStrings.space3 c3 c2 c1) s
     = match s with EmptyString => false | String c _ => GoStrings.asciiSpace c end.
Proof.
  unfold GoStrings.leadingSpace.
  destruct s as [ | c1 [ | c2 [ | c3 s]]]; simpl; intros H.
  - split; reflexivity.
  - split; apply orb_false_r.
  - apply isASCII_cons in H. destruct H as [H1 H].
    apply isASCII_cons in H. destruct H as [H2 _].
    assert (A : GoStrings.space2 c1 c2 = false).
    { destruct (GoStrings.space2 c1 c2) eqn:E; [ | reflexivity ].
      apply (space_bytes_not_ascii c1 c2 c1) in E. lia. }
    assert (B : GoStrings.space2 c2 c1 = false).
    { destruct (GoStrings.space2 c2 c1) eqn:E; [ | reflexivity ].
      apply (space_bytes_not_ascii c2 c1 c1) in E. lia. }
    rewrite A, B. simpl. split; apply orb_false_r.
  - apply isASCII_cons in H. destruct H as [H1 H].
    apply isASCII_cons in H. destruct H as [H2 H].
    apply isASCII_cons in H. destruct H as [H3 _].
    assert (A : GoStrings.space2 c1 c2 = false).
    { destruct (GoStrings.space2 c1 c2) eqn:E; [ | reflexivity ].
      apply (space_bytes_not_ascii c1 c2 c1) in E. lia. }
    assert (B : GoStrings.space2 c2 c1 = false).
    { destruct (GoStrings.space2 c2 c1) eqn:E; [ | reflexivity ].
      apply (space_bytes_not_ascii c2 c1 c1) in E. lia. }
    assert (C : GoStrings.space3 c1 c2 c3 = false).
    { destruct (GoStrings.space3 c1 c2 c3) eqn:E; [ | reflexivity ].
      apply (space_bytes_not_ascii c1 c2 c3) in E. lia. }
    assert (D : GoStrings.space3 c3 c2 c1 = false).
    { destruct (GoStrings.space3 c3 c2 c1) eqn:E; [ | reflexivity ].
      apply (space_bytes_not_ascii c3 c2 c1) in E. lia. }
    rewrite A, B, C, D. simpl. split; apply orb_false_r.
Qed.

(** Upper-casing ASCII text that is trimmed gives text that is trimmed and
    upper-cased. *)
Lemma upper_of_trimmed {tables : UnicodeTables} (t : string) :
  GoStrings.isASCII t = true ->
  GoStrings.leadingSpace t = false ->
  GoStrings.trailingSpace t = false ->
  GoStrings.TrimSpace (GoStrings.ToUpper t) = GoStrings.ToUpper t
  /\ GoStrings.ToUpper (GoStrings.ToUpper t) = GoStrings.ToUpper t
  /\ GoStrings.len (GoStrings.ToUpper t) = GoStrings.len t.
Proof.
  intros Ha Hl Ht.
  destruct (isASCII_upper t Ha) as [Hua Hidem].
  assert (E : GoStrings.ToUpper t = GoStrings.mapBytes GoStrings.upperByte t)
    by (unfold GoStrings.ToUpper; rewrite Ha; reflexivity).
  rewrite E. split; [ | split ].
  - apply TrimSpace_fixed.
    + rewrite (proj1 (ascii_starts _ Hua)). rewrite (proj1 (ascii_starts _ Ha)) in Hl.
      destruct t as [ | c t]; simpl; [ reflexivity | ].
      apply isASCII_cons in Ha. destruct Ha as [Hc _].
      rewrite (proj1 (proj2 (upperByte_range c Hc))). exact Hl.
    + unfold GoStrings.trailingSpace in *. rewrite rev_mapBytes.
      assert (Hra : GoStrings.isASCII (GoStrings.rev t) = true) by (apply isASCII_rev; exact Ha).
      destruct (isASCII_upper _ Hra) as [Hrua _].
      rewrite (proj2 (ascii_starts _ Hrua)). rewrite (proj2 (ascii_starts _ Hra)) in Ht.
      destruct (GoStrings.rev t) as [ | c r]; simpl; [ reflexivity | ].
      apply isASCII_cons in Hra. destruct Hra as [Hc _].
      rewrite (proj1 (proj2 (upperByte_range c Hc))). exact Ht.
  - unfold GoStrings.ToUpper. rewrite Hua. exact Hidem.
  - unfold GoStrings.len. rewrite length_mapBytes. reflexivity.
Qed.

(** X7.  What the factory stores is in normal form, for a Product made from
    a SKU that is ASCII once trimmed: given back to the factory, the fields
    of such a Product pass every check again and come out unchanged; the two
    Products differ in their time stamps only.  (The condition is on the SKU
    that went in: [ToUpper] can shorten other text.) *)
Theorem NewProduct_on_its_output {tables : UnicodeTables} (now now' : Time)
    (name description sku category brand : string) (price : float) (stock : Z)
    (p : entities.Product) :
  entities.NewProduct now name description sku category brand price stock = Ok p ->
  GoStrings.isASCII (GoStrings.TrimSpace sku) = true ->
  entities.NewProduct now' (entities.Name p) (entities.Description p) (entities.SKU p)
    (entities.Category p) (entities.Brand p) (entities.Price p) (entities.Stock p)
  = Ok (entities.mkProduct (entities.ID p) (entities.Name p) (entities.Description p)
          (entities.SKU p) (entities.Price p) (entities.Category p) (entities.Brand p)
          (entities.Stock p) (entities.Status p) now' now').
Proof.
  unfold entities.NewProduct at 1.
  destruct (entities.validateProductName name) eqn:Vn; [ discriminate | ].
  destruct (entities.validateSKU sku) eqn:Vs; [ discriminate | ].
  destruct (entities.validatePrice price) eqn:Vp; [ discriminate | ].
  destruct (entities.validateStock stock) eqn:Vst; [ discriminate | ].
  destruct (String.eqb (GoStrings.TrimSpace category) EmptyString) eqn:Vc;
    [ discriminate | ].
  intros H Hascii. injection H as <-. simpl.
  destruct (TrimSpace_edges sku) as [Hl Ht].
  destruct (upper_of_trimmed (GoStrings.TrimSpace sku) Hascii Hl Ht) as (U1 & U2 & U3).
  unfold entities.NewProduct.
  assert (Wn : entities.validateProductName (GoStrings.TrimSpace name) = None).
  { unfold entities.validateProductName in *. rewrite TrimSpace_idempotent. exact Vn. }
  assert (Ws : entities.validateSKU (GoStrings.ToUpper (GoStrings.TrimSpace sku)) = None).
  { unfold entities.validateSKU in *. rewrite U1.
    assert (L : GoStrings.len (GoStrings.TrimSpace sku) <> 0).
    { intros L0. apply eqb_empty_len in L0. rewrite L0 in Vs. discriminate Vs. }
    destruct (String.eqb (GoStrings.ToUpper (GoStrings.TrimSpace sku)) EmptyString) eqn:Z0.
    - apply eqb_empty_len in Z0. rewrite U3 in Z0. contradiction.
    - rewrite U3. destruct (String.eqb (GoStrings.TrimSpace sku) EmptyString);
        [ discriminate Vs | exact Vs ]. }
  rewrite Wn, Ws, Vp, Vst.
  rewrite !TrimSpace_idempotent, Vc, U1, U2. reflexivity.
Qed.

Lemma NewProduct_on_its_output_witness :
  entities.NewProduct (tables := asciiOnly) 1700000005
    "iPhone 15" "Latest Apple smartphone" "IPH15-128GB" "Electronics" "Apple"
    Sample.listPrice 100
  = Ok (entities.mkProduct 0%N "iPhone 15" "Latest Apple smartphone" "IPH15-128GB"
          Sample.listPrice "Electronics" "Apple" 100 entities.ProductStatusActive
          1700000005 1700000005).
Proof.
  assert (H : entities.NewProduct (tables := asciiOnly) 1700000000
                " iPhone 15 " "Latest Apple smartphone " " iph15-128gb" "Electronics"
                " Apple" Sample.listPrice 100
              = Ok (entities.mkProduct 0%N "iPhone 15" "Latest Apple smartphone"
                      "IPH15-128GB" Sample.listPrice "Electronics" "Apple" 100
                      entities.ProductStatusActive 1700000000 1700000000))
    by (vm_compute; reflexivity).
  apply (@NewProduct_on_its_output asciiOnly 1700000000 1700000005) in H.
  - exact H.
  - vm_compute. reflexivity.
Defined.

(** ** More of the use cases *)

Lemma NewProduct_error_text {tables : UnicodeTables} (now : Time)
    (name description sku category brand : string) (price : float) (stock : Z)
    (e : error) :
  entities.NewProduct now name description sku category brand price stock = Err e ->
  exists msg : string, e = errorString msg.
Proof.
  unfold entities.NewProduct, entities.validateProductName, entities.validateSKU,
    entities.validatePrice, entities.validateStock.
  repeat match goal with
         | |- context [if ?b then _ else _] => destruct b
         end;
    intros H; try discriminate H; injection H as <-; eexists; reflexivity.
Qed.

Section SingleField.

Context {S : Type}.
Variable repo : ports.ProductRepository S.
Variable clock : nat -> Time.
Variable id : N.
Variable w : World S.

(** X9.  When the load fails, each use case that starts with a load returns
    the port's error as it is (a not-found error stays a not-found error) and
    does nothing more. *)
Theorem load_failure_surfaces (e : error) (s1 : S)
    (request : dto.UpdateProductRequestDTO.t) (stock : Z) (price : float) :
  ports.GetByID repo id (store w) = (Err e, s1) ->
  let failed : result dto.ProductResponseDTO.t * World S :=
    (Err e, mkWorld s1 (calls w ++ [CallGetByID id]) (clockReads w)) in
  usecases.GetProductByID repo id w = failed
  /\ usecases.UpdateProduct repo clock id request w = failed
  /\ usecases.UpdateProductStock repo clock id stock w = failed
  /\ usecases.UpdateProductPrice repo clock id price w = failed
  /\ usecases.ActivateProduct repo clock id w = failed
  /\ usecases.DeactivateProduct repo clock id w = failed
  /\ usecases.DiscontinueProduct repo clock id w = failed.
Proof.
  intros H. cbv zeta.
  unfold usecases.GetProductByID, usecases.UpdateProduct, usecases.UpdateProductStock,
    usecases.UpdateProductPrice, usecases.ActivateProduct, usecases.DeactivateProduct,
    usecases.DiscontinueProduct, bind, usecases.repoGetByID, usecases.portCall, ret.
  rewrite H. repeat split; reflexivity.
Qed.

(** X10.  [UpdateProductStock] and [UpdateProductPrice] on a product the port
    has: a negative value is refused with a validation error that names the
    field and carries the entity's text; any other value comes back in the
    projection, with updated-at at the call's clock reading. *)
Theorem single_field_update_outcomes (p : entities.Product) (s1 : S)
    (stock : Z) (price : float) :
  ports.GetByID repo id (store w) = (Ok p, s1) ->
  let now := clock (clockReads w) in
  (stock < 0 ->
   fst (usecases.UpdateProductStock repo clock id stock w)
   = Err (domainError (productErrors.mkDomainError
                         "VALIDATION_ERROR" "stock quantity cannot be negative" "stock")))
  /\ (0 <= stock ->
      fst (usecases.UpdateProductStock repo clock id stock w)
      = Ok (dto.ProductToResponseDTO (entities.setStock stock now p)))
  /\ ((price <? 0)%float = true ->
      fst (usecases.UpdateProductPrice repo clock id price w)
      = Err (domainError (productErrors.mkDomainError
                            "VALIDATION_ERROR" "price cannot be negative" "price")))
  /\ ((price <? 0)%float = false ->
      fst (usecases.UpdateProductPrice repo clock id price w)
      = Ok (dto.ProductToResponseDTO (entities.setPrice price now p))).
Proof.
  intros H. cbv zeta.
  unfold usecases.UpdateProductStock, usecases.UpdateProductPrice,
    bind, usecases.repoGetByID, usecases.portCall, usecases.timeNow, ret.
  rewrite H. cbn. unfold entities.UpdateStock, entities.UpdatePrice.
  repeat split.
  - intros Hs. destruct (Z.ltb_spec stock 0); [ reflexivity | lia ].
  - intros Hs. destruct (Z.ltb_spec stock 0); [ lia | reflexivity ].
  - intros ->. reflexivity.
  - intros ->. reflexivity.
Qed.

(** X11.  The status use cases on a product the port has: the projection
    carries the new status and updated-at at the call's clock reading; after
    activation the product is available exactly when it is in stock, after
    deactivation and after discontinuation it is not available. *)
Theorem status_use_case_outcomes (p : entities.Product) (s1 : S) :
  ports.GetByID repo id (store w) = (Ok p, s1) ->
  let now := clock (clockReads w) in
  (exists d : dto.ProductResponseDTO.t,
      fst (usecases.ActivateProduct repo clock id w) = Ok d
      /\ dto.ProductResponseDTO.Status d = entities.ProductStatusActive
      /\ dto.ProductResponseDTO.IsActive d = true
      /\ dto.ProductResponseDTO.IsAvailable d = (0 <? entities.Stock p)
      /\ dto.ProductResponseDTO.UpdatedAt d = now)
  /\ (exists d : dto.ProductResponseDTO.t,
         fst (usecases.DeactivateProduct repo clock id w) = Ok d
         /\ dto.ProductResponseDTO.Status d = entities.ProductStatusInactive
         /\ dto.ProductResponseDTO.IsActive d = false
         /\ dto.ProductResponseDTO.IsAvailable d = false
         /\ dto.ProductResponseDTO.UpdatedAt d = now)
  /\ (exists d : dto.ProductResponseDTO.t,
         fst (usecases.DiscontinueProduct repo clock id w) = Ok d
         /\ dto.ProductResponseDTO.Status d = entities.ProductStatusDiscontinued
         /\ dto.ProductResponseDTO.IsActive d = false
         /\ dto.ProductResponseDTO.IsAvailable d = false
         /\ dto.ProductResponseDTO.UpdatedAt d = now).
Proof.
  intros H. cbv zeta.
  unfold usecases.ActivateProduct, usecases.DeactivateProduct,
    usecases.DiscontinueProduct, bind, usecases.repoGetByID, usecases.portCall,
    usecases.timeNow, ret.
  rewrite H. cbn.
  split; [ | split ]; eexists; (split; [ reflexivity | ]); cbn; repeat split.
Qed.

(** The field of the entity after an assignment guarded by [!= ""]. *)
Let pick (new old : string) : string :=
  if String.eqb new EmptyString then old else new.

(** X12.  [UpdateProduct] with neither price nor stock in the request: each
    text field in the request replaces the entity's as it is, not trimmed and
    not checked; an empty one leaves the entity's; updated-at is not
    refreshed. *)
Theorem UpdateProduct_text_fields (p : entities.Product) (s1 : S)
    (request : dto.UpdateProductRequestDTO.t) :
  ports.GetByID repo id (store w) = (Ok p, s1) ->
  dto.UpdateProductRequestDTO.Price request = None ->
  dto.UpdateProductRequestDTO.Stock request = None ->
  fst (usecases.UpdateProduct repo clock id request w)
  = Ok (dto.ProductToResponseDTO
          (entities.mkProduct (entities.ID p)
             (pick (dto.UpdateProductRequestDTO.Name request) (entities.Name p))
             (pick (dto.UpdateProductRequestDTO.Description request)
                   (entities.Description p))
             (entities.SKU p) (entities.Price p)
             (pick (dto.UpdateProductRequestDTO.Category request) (entities.Category p))
             (pick (dto.UpdateProductRequestDTO.Brand request) (entities.Brand p))
             (entities.Stock p) (entities.Status p) (entities.CreatedAt p)
             (entities.UpdatedAt p))).
Proof.
  intros H Hp Hs.
  unfold usecases.UpdateProduct, bind, usecases.repoGetByID, usecases.portCall, ret.
  rewrite H, Hp, Hs. cbn. unfold pick.
  destruct p as [pid pname pdesc psku pprice pcat pbrand pstock pstatus pcreated pupdated].
  destruct (String.eqb (dto.UpdateProductRequestDTO.Name request) EmptyString),
    (String.eqb (dto.UpdateProductRequestDTO.Description request) EmptyString),
    (String.eqb (dto.UpdateProductRequestDTO.Category request) EmptyString),
    (String.eqb (dto.UpdateProductRequestDTO.Brand request) EmptyString); reflexivity.
Qed.

(** X13.  [UpdateProduct] looks at the price before the stock: a negative
    price is refused as a validation error of the price whatever the stock in
    the request; with the price absent or taken, a negative stock is refused
    as a validation error of the stock. *)
Theorem UpdateProduct_validation_order (p : entities.Product) (s1 : S)
    (request : dto.UpdateProductRequestDTO.t) :
  ports.GetByID repo id (store w) = (Ok p, s1) ->
  (forall price : float,
      dto.UpdateProductRequestDTO.Price request = Some price ->
      (price <? 0)%float = true ->
      fst (usecases.UpdateProduct repo clock id request w)
      = Err (domainError (productErrors.mkDomainError
                            "VALIDATION_ERROR" "price cannot be negative" "price")))
  /\ (forall stock : Z,
         dto.UpdateProductRequestDTO.Stock request = Some stock ->
         stock < 0 ->
         (dto.UpdateProductRequestDTO.Price request = None
          \/ exists price : float,
               dto.UpdateProductRequestDTO.Price request = Some price
               /\ (price <? 0)%float = false) ->
         fst (usecases.UpdateProduct repo clock id request w)
         = Err (domainError (productErrors.mkDomainError
                               "VALIDATION_ERROR" "stock quantity cannot be negative"
                               "stock"))).
Proof.
  intros H.
  unfold usecases.UpdateProduct, bind, usecases.repoGetByID, usecases.portCall,
    usecases.timeNow, ret.
  rewrite H. cbn. split.
  - intros price -> Hneg. cbn. unfold entities.UpdatePrice. rewrite Hneg. reflexivity.
  - intros stock -> Hneg [-> | (price & -> & Hok)]; cbn.
    + unfold entities.UpdateStock. destruct (Z.ltb_spec stock 0); [ reflexivity | lia ].
    + unfold entities.UpdatePrice. rewrite Hok. cbn.
      unfold entities.UpdateStock. destruct (Z.ltb_spec stock 0); [ reflexivity | lia ].
Qed.

End SingleField.

(** X8.  The five use cases that change one field make one call to the
    port, the load, whatever the port.  On the GORM adapter, whose [GetByID]
    hands out an entity of its own and not the row, the table is afterwards
    as it was before: what these use cases return is never written back. *)
Theorem single_field_use_cases_only_load (clock : nat -> Time) (id : N) (stock : Z)
    (price : float) :
  (forall (S : Type) (repo : ports.ProductRepository S) (w : World S),
      let one_call (out : result dto.ProductResponseDTO.t * World S) : Prop :=
        callsSince w (snd out) = [CallGetByID id] in
      one_call (usecases.UpdateProductStock repo clock id stock w)
      /\ one_call (usecases.UpdateProductPrice repo clock id price w)
      /\ one_call (usecases.ActivateProduct repo clock id w)
      /\ one_call (usecases.DeactivateProduct repo clock id w)
      /\ one_call (usecases.DiscontinueProduct repo clock id w))
  /\ (forall w : World product_repository.DB,
         let table_kept (out : result dto.ProductResponseDTO.t
                               * World product_repository.DB) : Prop :=
           store (snd out) = store w in
         let gorm := product_repository.NewGormProductRepository in
         table_kept (usecases.UpdateProductStock gorm clock id stock w)
         /\ table_kept (usecases.UpdateProductPrice gorm clock id price w)
         /\ table_kept (usecases.ActivateProduct gorm clock id w)
         /\ table_kept (usecases.DeactivateProduct gorm clock id w)
         /\ table_kept (usecases.DiscontinueProduct gorm clock id w)).
Proof.
  split.
  - intros S repo w. cbv zeta.
    unfold usecases.UpdateProductStock, usecases.UpdateProductPrice,
      usecases.ActivateProduct, usecases.DeactivateProduct, usecases.DiscontinueProduct,
      bind, usecases.repoGetByID, usecases.portCall, usecases.timeNow, ret.
    destruct (ports.GetByID repo id (store w)) as [[product | err] s1]; cbn.
    + unfold entities.UpdateStock, entities.UpdatePrice.
      destruct (stock <? 0), (price <? 0)%float; cbn; repeat split;
        apply callsSince_app.
    + repeat split; apply callsSince_app.
  - intros w. cbv zeta.
    unfold usecases.UpdateProductStock, usecases.UpdateProductPrice,
      usecases.ActivateProduct, usecases.DeactivateProduct, usecases.DiscontinueProduct,
      bind, usecases.repoGetByID, usecases.portCall, usecases.timeNow, ret.
    cbn [ports.GetByID product_repository.NewGormProductRepository].
    assert (Hkept : snd (product_repository.GetByID id (store w)) = store w).
    { unfold product_repository.GetByID.
      destruct (product_repository.outage (store w)); [ reflexivity | ].
      destruct (List.find _ _); reflexivity. }
    destruct (product_repository.GetByID id (store w)) as [[product | err] s1];
      cbn [snd] in Hkept; subst s1; cbn.
    + unfold entities.UpdateStock, entities.UpdatePrice.
      destruct (stock <? 0), (price <? 0)%float; cbn; repeat split; reflexivity.
    + repeat split; reflexivity.
Qed.

Lemma load_failure_surfaces_witness :
  fst (usecases.GetProductByID product_repository.NewGormProductRepository 9%N
         (Sample.world Sample.oneRow))
  = Err (domainError productErrors.ErrProductNotFound).
Proof.
  assert (H : ports.GetByID product_repository.NewGormProductRepository 9%N
                (store (Sample.world Sample.oneRow))
              = (Err (domainError productErrors.ErrProductNotFound), Sample.oneRow))
    by (vm_compute; reflexivity).
  destruct (load_failure_surfaces product_repository.NewGormProductRepository
              Sample.clock 9%N (Sample.world Sample.oneRow) _ _ Sample.rename 3 4.5%float H)
    as [G _].
  rewrite G. reflexivity.
Defined.

Lemma single_field_update_outcomes_witness :
  fst (usecases.UpdateProductStock product_repository.NewGormProductRepository
         Sample.clock 1%N (-5) (Sample.world Sample.oneRow))
  = Err (domainError (productErrors.mkDomainError
                        "VALIDATION_ERROR" "stock quantity cannot be negative" "stock")).
Proof.
  assert (H : ports.GetByID product_repository.NewGormProductRepository 1%N
                (store (Sample.world Sample.oneRow))
              = (Ok Sample.iphone, Sample.oneRow))
    by (vm_compute; reflexivity).
  destruct (single_field_update_outcomes product_repository.NewGormProductRepository
              Sample.clock 1%N (Sample.world Sample.oneRow) _ _ (-5) 4.5%float H)
    as [G _].
  apply G. lia.
Defined.

Lemma status_use_case_outcomes_witness :
  exists d : dto.ProductResponseDTO.t,
    fst (usecases.DeactivateProduct product_repository.NewGormProductRepository
           Sample.clock 1%N (Sample.world Sample.oneRow)) = Ok d
    /\ dto.ProductResponseDTO.Status d = entities.ProductStatusInactive
    /\ dto.ProductResponseDTO.IsActive d = false
    /\ dto.ProductResponseDTO.IsAvailable d = false
    /\ dto.ProductResponseDTO.UpdatedAt d = Sample.clock 0.
Proof.
  assert (H : ports.GetByID product_repository.NewGormProductRepository 1%N
                (store (Sample.world Sample.oneRow))
              = (Ok Sample.iphone, Sample.oneRow))
    by (vm_compute; reflexivity).
  destruct (status_use_case_outcomes product_repository.NewGormProductRepository
              Sample.clock 1%N (Sample.world Sample.oneRow) _ _ H)
    as (_ & G & _).
  exact G.
Defined.

Lemma UpdateProduct_text_fields_witness :
  exists d : dto.ProductResponseDTO.t,
    fst (usecases.UpdateProduct product_repository.NewGormProductRepository
           Sample.clock 1%N Sample.rename (Sample.world Sample.oneRow)) = Ok d
    /\ dto.ProductResponseDTO.Name d = "iPhone 15 Pro"
    /\ dto.ProductResponseDTO.Brand d = "Apple"
    /\ dto.ProductResponseDTO.UpdatedAt d = entities.UpdatedAt Sample.iphone.
Proof.
  assert (H : ports.GetByID product_repository.NewGormProductRepository 1%N
                (store (Sample.world Sample.oneRow))
              = (Ok Sample.iphone, Sample.oneRow))
    by (vm_compute; reflexivity).
  eexists. split.
  - apply (UpdateProduct_text_fields product_repository.NewGormProductRepository
             Sample.clock 1%N (Sample.world Sample.oneRow) _ _ Sample.rename H);
      reflexivity.
  - repeat split.
Defined.

Lemma UpdateProduct_validation_order_witness :
  fst (usecases.UpdateProduct product_repository.NewGormProductRepository
         Sample.clock 1%N Sample.belowZero (Sample.world Sample.oneRow))
  = Err (domainError (productErrors.mkDomainError
                        "VALIDATION_ERROR" "price cannot be negative" "price")).
Proof.
  assert (H : ports.GetByID product_repository.NewGormProductRepository 1%N
                (store (Sample.world Sample.oneRow))
              = (Ok Sample.iphone, Sample.oneRow))
    by (vm_compute; reflexivity).
  destruct (UpdateProduct_validation_order product_repository.NewGormProductRepository
              Sample.clock 1%N (Sample.world Sample.oneRow) _ _ Sample.belowZero H)
    as [G _].
  apply (G (-1.5)%float); reflexivity.
Defined.

(** ** The GORM adapter *)

Import product_repository.

(** X14.  Entity to row and back is the identity; row to entity and back
    keeps every column but the deletion stamp, which it clears. *)
Theorem toEntity_toModel (product : entities.Product) (model : ProductModel) :
  toEntity (toModel product) = product
  /\ toModel (toEntity model)
     = mkModel (ID model) (Name model) (Description model) (SKU model) (Price model)
               (Category model) (Brand model) (Stock model) (Status model)
               (CreatedAt model) (UpdatedAt model) None
  /\ (live model = true -> toModel (toEntity model) = model).
Proof.
  destruct product, model as [i n d s pr c b st sts ca ua [del | ]]; simpl;
    repeat split; try reflexivity; discriminate.
Qed.

Lemma find_none {A : Type} (f : A -> bool) (l : list A) :
  List.existsb f l = false -> List.find f l = None.
Proof.
  induction l as [ | a l IH]; simpl; [ reflexivity | ].
  intros H. apply orb_false_elim in H. destruct H as [Ha Hl].
  rewrite Ha. apply IH. exact Hl.
Qed.

Lemma find_none_app {A : Type} (f : A -> bool) (l : list A) (x : A) :
  List.existsb f l = false -> f x = true -> List.find f (l ++ [x]) = Some x.
Proof.
  induction l as [ | a l IH]; simpl; intros H Hx.
  - rewrite Hx. reflexivity.
  - apply orb_false_elim in H. destruct H as [Ha Hl]. rewrite Ha. apply IH; assumption.
Qed.

Lemma filter_none {A : Type} (f : A -> bool) (l : list A) :
  List.existsb f l = false -> List.filter f l = [].
Proof.
  induction l as [ | a l IH]; simpl; intros H; [ reflexivity | ].
  apply orb_false_elim in H. destruct H as [Ha Hl]. rewrite Ha. apply IH; assumption.
Qed.

Lemma filter_some {A : Type} (f : A -> bool) (l : list A) :
  List.existsb f l = true -> (0 <? Z.of_nat (List.length (List.filter f l))) = true.
Proof.
  induction l as [ | a l IH]; simpl; intros H; [ discriminate H | ].
  destruct (f a); simpl in *; [ apply Z.ltb_lt; lia | apply IH; exact H ].
Qed.

Lemma existsb_weaken {A : Type} (f g : A -> bool) (l : list A) :
  (forall a, f a = true -> g a = true) ->
  List.existsb g l = false -> List.existsb f l = false.
Proof.
  intros Hfg. induction l as [ | a l IH]; simpl; intros H; [ reflexivity | ].
  apply orb_false_elim in H. destruct H as [Ha Hl].
  rewrite (IH Hl). destruct (f a) eqn:E; [ | reflexivity ].
  rewrite (Hfg a E) in Ha. discriminate Ha.
Qed.

Lemma existsb_split {A : Type} (f g : A -> bool) (l : list A) :
  List.existsb (fun a => f a || g a) l = List.existsb f l || List.existsb g l.
Proof.
  induction l as [ | a l IH]; simpl; [ reflexivity | ].
  rewrite IH. destruct (f a), (g a), (List.existsb f l), (List.existsb g l); reflexivity.
Qed.

Lemma find_map_same {A : Type} (f : A -> bool) (g : A -> A) (l : list A) :
  (forall a, f (g a) = f a) ->
  List.find f (List.map g l) = option_map g (List.find f l).
Proof.
  intros Hg. induction l as [ | a l IH]; simpl; [ reflexivity | ].
  rewrite Hg. destruct (f a); [ reflexivity | exact IH ].
Qed.

(** The rows that stand in the way of an insert are those with the key or
    with the SKU, live or not. *)
Lemma collision_free (id : N) (sku : string) (rows : list ProductModel) :
  List.existsb (fun m => (ID m =? id)%N || String.eqb (SKU m) sku) rows = false ->
  List.existsb (idIs id) rows = false /\ List.existsb (skuIs sku) rows = false.
Proof.
  intros Ex. split; refine (existsb_weaken _ _ _ _ Ex); intros m Hm.
  - unfold idIs in Hm. apply andb_prop in Hm. destruct Hm as [_ Hm]. cbn.
    rewrite Hm. reflexivity.
  - unfold skuIs in Hm. apply andb_prop in Hm. destruct Hm as [_ Hm]. cbn.
    rewrite Hm. apply orb_true_r.
Qed.

(** What a successful [Create] did. *)
Lemma Create_ok (product created : entities.Product) (db db' : DB) :
  Create product db = (Ok created, db') ->
  let id := if (entities.ID product =? 0)%N then (lastID db + 1)%N
            else entities.ID product in
  outage db = None
  /\ created
     = entities.mkProduct id (entities.Name product)
         (entities.Description product) (entities.SKU product) (entities.Price product)
         (entities.Category product) (entities.Brand product) (entities.Stock product)
         (entities.Status product) (entities.CreatedAt product)
         (entities.UpdatedAt product)
  /\ List.existsb (fun m => (ID m =? id)%N || String.eqb (SKU m) (entities.SKU product))
                  (products db) = false
  /\ db' = mkDB (products db ++ [toModel created])
                (if (entities.ID product =? 0)%N then (lastID db + 1)%N else lastID db)
                None.
Proof.
  unfold Create, ExistsBySKU, insert.
  destruct (outage db) as [err | ] eqn:Ho; [ discriminate | ].
  match goal with
  | |- context [0 <? ?c] => destruct (0 <? c); [ discriminate | ]
  end.
  rewrite Ho. cbn -[List.existsb].
  match goal with
  | |- context [if List.existsb ?f ?l then _ else _] =>
      destruct (List.existsb f l) eqn:Ex; [ discriminate | ]
  end.
  intros H. injection H as <- <-.
  split; [ reflexivity | ]. split; [ reflexivity | ]. split; reflexivity.
Qed.

(** A row that was appended is found by its key and by its SKU when no
    earlier row has either. *)
Lemma stored_row_found (created : entities.Product) (rows : list ProductModel)
    (last : N) :
  List.existsb (fun m => (ID m =? entities.ID created)%N
                         || String.eqb (SKU m) (entities.SKU created)) rows = false ->
  let db' := mkDB (rows ++ [toModel created]) last None in
  GetByID (entities.ID created) db' = (Ok created, db')
  /\ GetBySKU (entities.SKU created) db' = (Ok created, db').
Proof.
  intros Ex db'. destruct (collision_free _ _ _ Ex) as [Hid Hsku].
  assert (Et : toEntity (toModel created) = created) by (destruct created; reflexivity).
  assert (Li : idIs (entities.ID created) (toModel created) = true)
    by (unfold idIs, live; cbn; rewrite N.eqb_refl; reflexivity).
  assert (Ls : skuIs (entities.SKU created) (toModel created) = true)
    by (unfold skuIs, live; cbn; rewrite String.eqb_refl; reflexivity).
  unfold GetByID, GetBySKU, db'. cbn [outage products].
  rewrite (find_none_app _ _ (toModel created) Hid Li).
  rewrite (find_none_app _ _ (toModel created) Hsku Ls).
  rewrite Et. split; reflexivity.
Qed.

(** An insert next to a row with the same SKU, live or not, is refused. *)
Lemma Create_known_SKU (product : entities.Product) (db : DB) :
  outage db = None ->
  List.existsb (fun m => String.eqb (SKU m) (entities.SKU product)) (products db) = true ->
  Create product db = (Err (domainError productErrors.ErrProductAlreadyExists), db).
Proof.
  intros Ho Hex. unfold Create, ExistsBySKU. rewrite Ho.
  destruct (List.existsb (skuIs (entities.SKU product)) (products db)) eqn:Hlive.
  - rewrite (filter_some _ _ Hlive). reflexivity.
  - rewrite (filter_none _ _ Hlive). cbn [List.length Z.of_nat Z.ltb Z.compare].
    unfold insert. rewrite Ho. cbn -[List.existsb handleError].
    rewrite existsb_split, Hex, orb_true_r. reflexivity.
Qed.

(** X15.  While the server answers, [Create] stores nothing for an entity
    whose SKU, or whose key, a row of the table holds, a row marked as
    deleted included: it returns an error and leaves the table as it was.
    When the row with the SKU is a live one the error is the already-exists
    one. *)
Theorem Create_refuses_known_key (product : entities.Product) (db : DB) :
  outage db = None ->
  let id := if (entities.ID product =? 0)%N then (lastID db + 1)%N
            else entities.ID product in
  (List.existsb (skuIs (entities.SKU product)) (products db) = true ->
   Create product db = (Err (domainError productErrors.ErrProductAlreadyExists), db))
  /\ (List.existsb
        (fun m => (ID m =? id)%N || String.eqb (SKU m) (entities.SKU product))
        (products db) = true ->
      exists e : error, Create product db = (Err e, db)).
Proof.
  intros Ho id. unfold Create, ExistsBySKU. rewrite Ho. split.
  - intros Hlive. rewrite (filter_some _ _ Hlive). reflexivity.
  - intros Hex.
    destruct (List.existsb (skuIs (entities.SKU product)) (products db)) eqn:Hlive.
    + rewrite (filter_some _ _ Hlive). eexists. reflexivity.
    + rewrite (filter_none _ _ Hlive). cbn [List.length Z.of_nat Z.ltb Z.compare].
      unfold insert. rewrite Ho. cbn -[List.existsb handleError].
      fold id. rewrite Hex. eexists. reflexivity.
Qed.

Lemma Create_refuses_known_key_witness :
  Create Sample.iphone Sample.oneRow
  = (Err (domainError productErrors.ErrProductAlreadyExists), Sample.oneRow).
Proof.
  apply (Create_refuses_known_key Sample.iphone Sample.oneRow); reflexivity.
Defined.

(** X16.  While the server answers, a look-up by an id, or by a SKU, that no
    live row has gives the product-not-found error and leaves the table as it
    was; the handler answers such an error with status 404. *)
Theorem lookup_of_missing_key (id : N) (sku : string) (db : DB) :
  outage db = None ->
  (List.existsb (idIs id) (products db) = false ->
   GetByID id db = (Err (domainError productErrors.ErrProductNotFound), db))
  /\ (List.existsb (skuIs sku) (products db) = false ->
      GetBySKU sku db = (Err (domainError productErrors.ErrProductNotFound), db)
      /\ ExistsBySKU sku db = (Ok false, db))
  /\ fst (handlers.handleError (domainError productErrors.ErrProductNotFound))
     = handlers.StatusNotFound.
Proof.
  intros Ho. unfold GetByID, GetBySKU, ExistsBySKU. rewrite Ho.
  split; [ | split ].
  - intros H. rewrite (find_none _ _ H). reflexivity.
  - intros H. rewrite (find_none _ _ H), (filter_none _ _ H). split; reflexivity.
  - reflexivity.
Qed.

Lemma lookup_of_missing_key_witness :
  GetByID 9%N Sample.withLegacyRow
  = (Err (domainError productErrors.ErrProductNotFound), Sample.withLegacyRow).
Proof.
  apply (lookup_of_missing_key 9%N "IPH16" Sample.withLegacyRow); reflexivity.
Defined.

(** X17.  The adapter's [UpdateStock], while the server answers: it reports no
    error, whether or not a live row has the id; the product with that id is
    then read back with the new stock and the new updated-at and otherwise as
    before; every other id reads back as before.  The stock is written as
    given, a negative one too. *)
Theorem adapter_UpdateStock (now : Time) (id : N) (stock : Z) (db : DB) :
  outage db = None ->
  let db' := snd (UpdateStock now id stock db) in
  fst (UpdateStock now id stock db) = None
  /\ fst (GetByID id db')
     = match fst (GetByID id db) with
       | Ok p => Ok (entities.setStock stock now p)
       | Err e => Err e
       end
  /\ (forall other : N, other <> id -> fst (GetByID other db') = fst (GetByID other db))
  /\ (List.existsb (idIs id) (products db) = false -> db' = db).
Proof.
  intros Ho. unfold UpdateStock, statement. rewrite Ho. cbn [fst snd].
  split; [ reflexivity | ]. unfold GetByID. cbn [outage products]. rewrite Ho.
  split; [ | split ].
  - unfold updateRows. rewrite find_map_same.
    + destruct (List.find (idIs id) (products db)) as [m | ] eqn:Hf; cbn.
      * apply List.find_some in Hf. destruct Hf as [_ Hm]. rewrite Hm. reflexivity.
      * reflexivity.
    + intros m. destruct (idIs id m) eqn:E; [ | exact E ].
      unfold idIs, live in *. cbn. exact E.
  - intros other Hother. unfold updateRows. rewrite find_map_same.
    + destruct (List.find (idIs other) (products db)) as [m | ] eqn:Hf; cbn;
        [ | reflexivity ].
      apply List.find_some in Hf. destruct Hf as [_ Hm].
      destruct (idIs id m) eqn:E; [ | reflexivity ].
      unfold idIs in *. apply andb_prop in Hm. apply andb_prop in E.
      destruct Hm as [_ Hm], E as [_ E].
      apply N.eqb_eq in Hm. apply N.eqb_eq in E. congruence.
    + intros m. destruct (idIs id m); reflexivity.
  - intros H. destruct db as [rows last out]. cbn in *. subst out. f_equal.
    unfold updateRows. induction rows as [ | m rows IH]; cbn in *; [ reflexivity | ].
    apply orb_false_elim in H. destruct H as [Hm Hr]. rewrite Hm, (IH Hr). reflexivity.
Qed.

Lemma adapter_UpdateStock_witness :
  fst (UpdateStock 1700000009 9%N (-3) Sample.oneRow) = None
  /\ fst (GetByID 1%N (snd (UpdateStock 1700000009 1%N (-3) Sample.oneRow)))
     = Ok (entities.setStock (-3) 1700000009 Sample.iphone).
Proof.
  split.
  - apply (adapter_UpdateStock 1700000009 9%N (-3) Sample.oneRow). reflexivity.
  - destruct (adapter_UpdateStock 1700000009 1%N (-3) Sample.oneRow eq_refl)
      as (_ & G & _).
    rewrite G. reflexivity.
Defined.

Lemma deleted_id_gone (now : Time) (id : N) (rows : list ProductModel) :
  List.existsb (idIs id) (updateRows (setDeletedAt now) id rows) = false.
Proof.
  unfold updateRows. induction rows as [ | m l IH]; cbn; [ reflexivity | ].
  rewrite IH. destruct (idIs id m) eqn:E; [ reflexivity | rewrite E; reflexivity ].
Qed.

Lemma other_sku_untouched (now : Time) (id : N) (sku : string) (rows : list ProductModel) :
  ~ List.In sku (List.map SKU rows) ->
  List.existsb (skuIs sku) (updateRows (setDeletedAt now) id rows) = false.
Proof.
  unfold updateRows. induction rows as [ | a l IH]; cbn; intros H; [ reflexivity | ].
  rewrite IH by (intros G; apply H; right; exact G).
  assert (Ha : SKU a <> sku) by (intros G; apply H; left; exact G).
  destruct (idIs id a); unfold skuIs; cbn;
    destruct (String.eqb_spec (SKU a) sku); try contradiction;
    rewrite ?andb_false_r; reflexivity.
Qed.

Lemma deleted_sku_gone (now : Time) (row : ProductModel) (rows : list ProductModel) :
  List.NoDup (List.map SKU rows) ->
  List.In row rows ->
  live row = true ->
  List.existsb (skuIs (SKU row)) (updateRows (setDeletedAt now) (ID row) rows) = false.
Proof.
  induction rows as [ | m l IH]; intros Hnd Hin Hl; [ reflexivity | ].
  cbn in Hnd. apply List.NoDup_cons_iff in Hnd. destruct Hnd as [Hm Hnd].
  change (updateRows (setDeletedAt now) (ID row) (m :: l))
    with ((if idIs (ID row) m then setDeletedAt now m else m)
          :: updateRows (setDeletedAt now) (ID row) l).
  cbn [List.existsb].
  destruct Hin as [-> | Hin].
  - rewrite (other_sku_untouched now (ID row) (SKU row) l Hm), orb_false_r.
    unfold idIs. rewrite Hl, N.eqb_refl. reflexivity.
  - rewrite (IH Hnd Hin Hl), orb_false_r.
    assert (Ha : SKU m <> SKU row).
    { intros H. apply Hm. rewrite H. apply List.in_map. exact Hin. }
    destruct (idIs (ID row) m); unfold skuIs; cbn;
      destruct (String.eqb_spec (SKU m) (SKU row)); try contradiction;
      rewrite ?andb_false_r; reflexivity.
Qed.

(** X18.  The adapter's [Delete], while the server answers, on a table whose
    SKUs are unique: afterwards the product with that id is not found and its
    SKU is reported as absent, but the row is still there, so a [Create] with
    that SKU is still refused and stores nothing. *)
Theorem adapter_Delete (now : Time) (row : ProductModel) (db : DB) :
  outage db = None ->
  List.NoDup (List.map SKU (products db)) ->
  List.In row (products db) ->
  live row = true ->
  let db' := snd (Delete now (ID row) db) in
  fst (Delete now (ID row) db) = None
  /\ GetByID (ID row) db' = (Err (domainError productErrors.ErrProductNotFound), db')
  /\ ExistsBySKU (SKU row) db' = (Ok false, db')
  /\ (forall product : entities.Product,
         entities.SKU product = SKU row ->
         exists e : error, Create product db' = (Err e, db')).
Proof.
  intros Ho Hnd Hin Hl. unfold Delete, statement. rewrite Ho. cbn [fst snd].
  set (db' := mkDB (updateRows (setDeletedAt now) (ID row) (products db)) (lastID db)
                   None).
  assert (Hid : List.existsb (idIs (ID row)) (products db') = false)
    by apply deleted_id_gone.
  assert (Hsku : List.existsb (skuIs (SKU row)) (products db') = false)
    by (apply deleted_sku_gone; assumption).
  split; [ reflexivity | ]. split; [ | split ].
  - unfold GetByID. cbn [outage db']. fold db'. rewrite (find_none _ _ Hid). reflexivity.
  - unfold ExistsBySKU. cbn [outage db']. fold db'. rewrite (filter_none _ _ Hsku).
    reflexivity.
  - intros product Hp. eexists. apply Create_known_SKU; [ reflexivity | ].
    rewrite Hp. apply List.existsb_exists.
    exists (if idIs (ID row) row then setDeletedAt now row else row). split.
    + cbn. unfold updateRows.
      apply (List.in_map (fun m => if idIs (ID row) m then setDeletedAt now m else m)).
      exact Hin.
    + destruct (idIs (ID row) row); cbn; apply String.eqb_refl.
Qed.

Lemma adapter_Delete_witness :
  fst (GetByID 1%N (snd (Delete 1700000009 1%N Sample.withLegacyRow)))
  = Err (domainError productErrors.ErrProductNotFound)
  /\ fst (ExistsBySKU "IPH15-128GB" (snd (Delete 1700000009 1%N Sample.withLegacyRow)))
     = Ok false
  /\ exists e : error,
       fst (Create Sample.iphone (snd (Delete 1700000009 1%N Sample.withLegacyRow)))
       = Err e.
Proof.
  destruct (adapter_Delete 1700000009 (toModel Sample.iphone) Sample.withLegacyRow)
    as (_ & G1 & G2 & G3).
  - reflexivity.
  - cbn. repeat constructor; cbn; intuition discriminate.
  - left. reflexivity.
  - reflexivity.
  - split; [ exact (f_equal fst G1) | ]. split; [ exact (f_equal fst G2) | ].
    destruct (G3 Sample.iphone eq_refl) as [e He]. exists e. exact (f_equal fst He).
Defined.

(** ** The handler's answer to an error *)

(** X19.  The handler answers an error with one of five statuses.  It is 500
    exactly when no domain error is in the error's chain; for a domain error
    the body carries its code and message, the status is 404 exactly for the
    not-found code and 409 exactly for the already-exists code, and the codes
    of a failed existence check, a failed create and a validation error all
    get 400. *)
Theorem handleError_status (err : error) :
  let status := fst (handlers.handleError err) in
  let body := snd (handlers.handleError err) in
  List.In status [400; 404; 409; 422; 500]
  /\ (status = 500 <-> handlers.errors_As err = None)
  /\ (forall d : productErrors.DomainError,
         handlers.errors_As err = Some d ->
         handlers.Error body = productErrors.Code d
         /\ handlers.Message body = productErrors.Message d
         /\ (status = 404 <-> productErrors.Code d = "PRODUCT_NOT_FOUND")
         /\ (status = 409 <-> productErrors.Code d = "PRODUCT_ALREADY_EXISTS")
         /\ (List.In (productErrors.Code d)
               ["FAILED_TO_CHECK_PRODUCT_EXISTENCE"; "FAILED_TO_CREATE_PRODUCT";
                "VALIDATION_ERROR"] ->
             status = 400)).
Proof.
  cbv zeta. unfold handlers.handleError.
  destruct (handlers.errors_As err) as [d | ].
  - unfold handlers.codeIn. cbn [List.existsb productErrors.Code
      productErrors.ErrProductNotFound productErrors.ErrProductAlreadyExists].
    rewrite !orb_false_r.
    destruct (String.eqb_spec (productErrors.Code d) "PRODUCT_NOT_FOUND") as [E1 | E1];
      [ | destruct (String.eqb_spec (productErrors.Code d) "PRODUCT_ALREADY_EXISTS")
            as [E2 | E2];
          [ | match goal with
              | |- context [if ?b then _ else _] => destruct b eqn:B3
              end;
              [ | match goal with
                  | |- context [if ?b then _ else _] => destruct b eqn:B4
                  end ] ] ];
      cbn [fst snd handlers.Error handlers.Message];
      cbv [handlers.StatusNotFound handlers.StatusConflict handlers.StatusBadRequest
           handlers.StatusUnprocessableEntity];
      (split; [ cbn; auto 8 | ]);
      (split; [ split; discriminate | ]);
      intros d' Hd; injection Hd as <-;
      repeat split; intros; try reflexivity; try assumption; try discriminate;
      try contradiction;
      try match goal with
          | H : List.In _ _ |- _ =>
              cbn in H; decompose [or] H; try contradiction;
              match goal with
              | G : _ = productErrors.Code d |- _ => rewrite <- G in *
              end
          end;
      try discriminate; try (cbn in B4; discriminate B4); try congruence.
  - cbn. split; [ auto 8 | ]. split; [ split; reflexivity | ].
    intros d H. discriminate H.
Qed.

(** ** From the request to the table and back *)

(** X20.  The errors of [CreateProduct] and the statuses the handler gives
    them: the invalid-SKU error (400), the failed existence check (400), the
    already-exists error (409), the failed create (400), and the factory's
    own validation error, a plain text, which is answered with 500.  An error
    of the port never comes out as it is. *)
Theorem CreateProduct_failures {S : Type} {tables : UnicodeTables}
    (repo : ports.ProductRepository S) (clock : nat -> Time)
    (request : dto.CreateProductRequestDTO.t) (w : World S) (e : error) :
  fst (usecases.CreateProduct repo clock request w) = Err e ->
  let status := fst (handlers.handleError e) in
  (e = domainError productErrors.ErrInvalidProductSKU /\ status = 400)
  \/ (e = domainError productErrors.ErrFailedToCheckProductExistance /\ status = 400)
  \/ (e = domainError productErrors.ErrProductAlreadyExists /\ status = 409)
  \/ (e = domainError productErrors.ErrFailedToCreateProduct /\ status = 400)
  \/ (exists msg : string,
         e = errorString msg
         /\ dto.ToEntity (clock (clockReads w)) request = Err e
         /\ status = 500).
Proof.
  unfold usecases.CreateProduct.
  destruct (usecases.validateSKU (dto.CreateProductRequestDTO.SKU request)).
  { simpl. intros H. injection H as <-. left. split; reflexivity. }
  unfold bind, usecases.repoExistsBySKU, usecases.repoCreate, usecases.portCall,
    usecases.timeNow, ret.
  destruct (ports.ExistsBySKU repo _ (store w)) as [[[ | ] | e0] s1]; cbn.
  - intros H. injection H as <-. right. right. left. split; reflexivity.
  - destruct (dto.ToEntity (clock (clockReads w)) request) as [domainEntity | err] eqn:Ht;
      cbn.
    + destruct (ports.Create repo domainEntity s1) as [[created | err] s2]; cbn.
      * discriminate.
      * destruct (errors_Is err _); cbn; intros H; injection H as <-.
        -- right. left. split; reflexivity.
        -- right. right. right. left. split; reflexivity.
    + intros H. injection H as <-. do 4 right.
      destruct (NewProduct_error_text _ _ _ _ _ _ _ _ _ Ht) as [msg ->].
      exists msg. repeat split.
  - intros H. injection H as <-. right. left. split; reflexivity.
Qed.

Lemma CreateProduct_failures_witness :
  exists e : error,
    fst (usecases.CreateProduct (tables := asciiOnly) NewGormProductRepository
           Sample.clock Sample.storedSku (Sample.world Sample.oneRow)) = Err e
    /\ e = domainError productErrors.ErrProductAlreadyExists
    /\ fst (handlers.handleError e) = 409.
Proof.
  exists (domainError productErrors.ErrProductAlreadyExists).
  assert (H : fst (usecases.CreateProduct (tables := asciiOnly) NewGormProductRepository
                     Sample.clock Sample.storedSku (Sample.world Sample.oneRow))
              = Err (domainError productErrors.ErrProductAlreadyExists))
    by (vm_compute; reflexivity).
  split; [ exact H | ].
  destruct (@CreateProduct_failures _ asciiOnly NewGormProductRepository Sample.clock
              Sample.storedSku (Sample.world Sample.oneRow) _ H)
    as [[E _] | [[E _] | [G | [[E _] | (msg & E & _)]]]];
    try discriminate E.
  exact G.
Defined.

(** What a successful [CreateProduct] went through. *)
Lemma CreateProduct_ok_steps {S : Type} {tables : UnicodeTables}
    (repo : ports.ProductRepository S) (clock : nat -> Time)
    (request : dto.CreateProductRequestDTO.t) (w w1 : World S)
    (d : dto.ProductResponseDTO.t) :
  usecases.CreateProduct repo clock request w = (Ok d, w1) ->
  exists (e created : entities.Product) (s1 : S),
    ports.ExistsBySKU repo (dto.CreateProductRequestDTO.SKU request) (store w)
    = (Ok false, s1)
    /\ dto.ToEntity (clock (clockReads w)) request = Ok e
    /\ ports.Create repo e s1 = (Ok created, store w1)
    /\ d = dto.ProductToResponseDTO created.
Proof.
  unfold usecases.CreateProduct.
  destruct (usecases.validateSKU (dto.CreateProductRequestDTO.SKU request)).
  { simpl. discriminate. }
  unfold bind, usecases.repoExistsBySKU, usecases.repoCreate, usecases.portCall,
    usecases.timeNow, ret.
  destruct (ports.ExistsBySKU repo _ (store w)) as [[[ | ] | e0] s1]; cbn;
    try discriminate.
  destruct (dto.ToEntity (clock (clockReads w)) request) as [e | err]; cbn;
    [ | discriminate ].
  destruct (ports.Create repo e s1) as [[created | err] s2] eqn:Hc; cbn.
  - intros H. injection H as <- <-. exists e, created, s1. cbn. repeat split.
    exact Hc.
  - destruct (errors_Is err _); cbn; discriminate.
Qed.

(** What the factory fills in by itself. *)
Lemma NewProduct_fresh {tables : UnicodeTables} (now : Time)
    (name description sku category brand : string) (price : float) (stock : Z)
    (p : entities.Product) :
  entities.NewProduct now name description sku category brand price stock = Ok p ->
  entities.ID p = 0%N /\ entities.Status p = entities.ProductStatusActive.
Proof.
  unfold entities.NewProduct.
  destruct (entities.validateProductName name); [ discriminate | ].
  destruct (entities.validateSKU sku); [ discriminate | ].
  destruct (entities.validatePrice price); [ discriminate | ].
  destruct (entities.validateStock stock); [ discriminate | ].
  destruct (String.eqb (GoStrings.TrimSpace category) EmptyString); [ discriminate | ].
  intros H. injection H as <-. split; reflexivity.
Qed.

(** X21.  Create, then read, on the adapter: after a [CreateProduct] that
    succeeded, the projection has the table's next key as its id and the
    SKU of the request trimmed and in upper case; [GetProductByID] with that
    id and [GetProductBySKU] with that SKU find the product; and
    [GetProductBySKU] with the SKU as the request spelled it, when that is
    not its stored form, answers product-not-found. *)
Theorem CreateProduct_then_get {tables : UnicodeTables} (clock : nat -> Time)
    (request : dto.CreateProductRequestDTO.t) (db : DB) (made : list PortCall)
    (n : nat) (d : dto.ProductResponseDTO.t) (w1 : World DB) :
  let raw := dto.CreateProductRequestDTO.SKU request in
  let sku := GoStrings.ToUpper (GoStrings.TrimSpace raw) in
  let found (r : result dto.ProductResponseDTO.t) : Prop :=
    exists d' : dto.ProductResponseDTO.t,
      r = Ok d'
      /\ dto.ProductResponseDTO.ID d' = dto.ProductResponseDTO.ID d
      /\ dto.ProductResponseDTO.SKU d' = dto.ProductResponseDTO.SKU d
      /\ dto.ProductResponseDTO.Name d' = dto.ProductResponseDTO.Name d
      /\ dto.ProductResponseDTO.Stock d' = dto.ProductResponseDTO.Stock d
      /\ dto.ProductResponseDTO.Status d' = dto.ProductResponseDTO.Status d in
  usecases.CreateProduct NewGormProductRepository clock request (mkWorld db made n)
  = (Ok d, w1) ->
  dto.ProductResponseDTO.ID d = (lastID db + 1)%N
  /\ dto.ProductResponseDTO.SKU d = sku
  /\ dto.ProductResponseDTO.Status d = entities.ProductStatusActive
  /\ found (fst (usecases.GetProductByID NewGormProductRepository
                   (dto.ProductResponseDTO.ID d) w1))
  /\ found (fst (usecases.GetProductBySKU NewGormProductRepository sku w1))
  /\ (raw <> sku ->
      fst (usecases.GetProductBySKU NewGormProductRepository raw w1)
      = Err (domainError productErrors.ErrProductNotFound)).
Proof.
  intros raw sku found H.
  destruct (CreateProduct_ok_steps _ _ _ _ _ _ H) as (e & created & s1 & Hex & Hte & Hcr & ->).
  cbn [store NewGormProductRepository ports.ExistsBySKU ports.Create] in Hex, Hcr.
  fold raw in Hex.
  assert (Hraw : List.existsb (skuIs raw) (products db) = false /\ s1 = db).
  { unfold ExistsBySKU in Hex. destruct (outage db); [ discriminate Hex | ].
    injection Hex as Hcount <-. split; [ | reflexivity ].
    destruct (List.existsb (skuIs raw) (products db)) eqn:E; [ | reflexivity ].
    rewrite (filter_some _ _ E) in Hcount. discriminate Hcount. }
  destruct Hraw as [Hraw ->].
  unfold dto.ToEntity in Hte.
  pose proof (NewProduct_SKU _ _ _ _ _ _ _ _ _ Hte) as Hsku. fold raw sku in Hsku.
  destruct (NewProduct_fresh _ _ _ _ _ _ _ _ _ Hte) as [Hid Hactive].
  destruct (Create_ok _ _ _ _ Hcr) as (_ & Hc & Ex & Hdb).
  rewrite Hid in Hc, Ex, Hdb. cbn [N.eqb] in Hc, Ex, Hdb. rewrite Hsku in Ex.
  assert (Ei : entities.ID created = (lastID db + 1)%N) by (rewrite Hc; reflexivity).
  assert (Es : entities.SKU created = sku) by (rewrite Hc; exact Hsku).
  assert (Ea : entities.Status created = entities.ProductStatusActive)
    by (rewrite Hc; exact Hactive).
  rewrite <- Ei, <- Es in Ex.
  destruct (stored_row_found created (products db) (lastID db + 1)%N Ex) as [G1 G2].
  destruct w1 as [st cl rd]. cbn [store] in Hdb. subst st.
  unfold found, usecases.GetProductByID, usecases.GetProductBySKU, bind,
    usecases.repoGetByID, usecases.repoGetBySKU, usecases.portCall, ret.
  cbn [store NewGormProductRepository ports.GetByID ports.GetBySKU
       dto.ProductToResponseDTO dto.ProductResponseDTO.ID dto.ProductResponseDTO.SKU
       dto.ProductResponseDTO.Status].
  split; [ exact Ei | ]. split; [ exact Es | ]. split; [ exact Ea | ].
  split; [ rewrite G1; eexists; repeat split | ].
  split; [ rewrite <- Es, G2; eexists; repeat split | ].
  intros Hne. unfold GetBySKU. cbn [outage products].
  rewrite find_none; [ reflexivity | ].
  rewrite List.existsb_app, Hraw. cbn. unfold skuIs. cbn [SKU toModel].
  rewrite Es. destruct (String.eqb_spec sku raw) as [E | E];
    [ symmetry in E; contradiction | ].
  reflexivity.
Qed.

Lemma CreateProduct_then_get_witness :
  exists d : dto.ProductResponseDTO.t,
    fst (usecases.CreateProduct (tables := asciiOnly) NewGormProductRepository
           Sample.clock Sample.pixel (Sample.world Sample.oneRow)) = Ok d
    /\ dto.ProductResponseDTO.ID d = 2%N
    /\ dto.ProductResponseDTO.SKU d = "PIX8-128GB"
    /\ fst (usecases.GetProductBySKU NewGormProductRepository " pix8-128gb "
              (snd (usecases.CreateProduct (tables := asciiOnly) NewGormProductRepository
                      Sample.clock Sample.pixel (Sample.world Sample.oneRow))))
       = Err (domainError productErrors.ErrProductNotFound).
Proof.
  destruct (usecases.CreateProduct (tables := asciiOnly) NewGormProductRepository
              Sample.clock Sample.pixel (Sample.world Sample.oneRow))
    as [[d | e] w1] eqn:H; [ | vm_compute in H; discriminate H ].
  exists d.
  destruct (@CreateProduct_then_get asciiOnly Sample.clock Sample.pixel Sample.oneRow
              [] 0%nat d w1 H) as (G1 & G2 & _ & _ & _ & G6).
  split; [ reflexivity | ]. split; [ exact G1 | ]. split; [ exact G2 | ].
  apply G6. vm_compute. discriminate.
Defined.

(** X22.  A duplicate that the pre-check misses: for a request that meets the
    constraints, on a table the server answers for, where no live row has the
    SKU as the request spells it but some row, live or marked as deleted, has
    it in its stored form, [CreateProduct] goes as far as the port's
    [Create], returns the failed-to-create error, not the already-exists one,
    and leaves the table as it was; the handler answers with status 400. *)
Theorem CreateProduct_duplicate_in_other_spelling {tables : UnicodeTables}
    (clock : nat -> Time) (request : dto.CreateProductRequestDTO.t) (db : DB)
    (made : list PortCall) (n : nat) :
  let raw := dto.CreateProductRequestDTO.SKU request in
  let sku := GoStrings.ToUpper (GoStrings.TrimSpace raw) in
  let w := mkWorld db made n in
  let out := usecases.CreateProduct NewGormProductRepository clock request w in
  outage db = None ->
  Constraint.name_ok (dto.CreateProductRequestDTO.Name request) ->
  Constraint.sku_ok raw ->
  Constraint.price_ok (dto.CreateProductRequestDTO.Price request) ->
  Constraint.stock_ok (dto.CreateProductRequestDTO.Stock request) ->
  Constraint.category_ok (dto.CreateProductRequestDTO.Category request) ->
  List.existsb (skuIs raw) (products db) = false ->
  List.existsb (fun m => String.eqb (SKU m) sku) (products db) = true ->
  fst out = Err (domainError productErrors.ErrFailedToCreateProduct)
  /\ store (snd out) = db
  /\ (exists e : entities.Product,
         dto.ToEntity (clock n) request = Ok e
         /\ callsSince w (snd out) = [CallExistsBySKU raw; CallCreate e])
  /\ fst (handlers.handleError (domainError productErrors.ErrFailedToCreateProduct))
     = handlers.StatusBadRequest.
Proof.
  intros raw sku w out reachable name_ok sku_ok price_ok stock_ok category_ok unseen Hex.
  assert (Hte : exists e : entities.Product,
             dto.ToEntity (clock n) request = Ok e /\ entities.SKU e = sku).
  { unfold dto.ToEntity, entities.NewProduct. fold raw.
    rewrite (proj1 (validateProductName_ok _) name_ok),
      (proj1 (validateSKU_ok raw) sku_ok), (validatePrice_ok _ price_ok),
      (proj1 (validateStock_ok _) stock_ok), (proj1 (category_check _) category_ok).
    eexists. split; reflexivity. }
  destruct Hte as (e & Hte & Hsku). rewrite <- Hsku in Hex.
  assert (Hout : out = (Err (domainError productErrors.ErrFailedToCreateProduct),
                        mkWorld db (calls w ++ [CallExistsBySKU raw; CallCreate e])
                                (S n))).
  { unfold out, usecases.CreateProduct. fold raw.
    rewrite validateSKU_same, (proj1 (validateSKU_ok raw) sku_ok).
    unfold bind, usecases.repoExistsBySKU, usecases.repoCreate, usecases.portCall,
      usecases.timeNow, ret.
    cbn [store calls clockReads w NewGormProductRepository ports.ExistsBySKU
         ports.Create].
    unfold ExistsBySKU at 1. rewrite reachable, (filter_none _ _ unseen).
    cbn [List.length Z.of_nat Z.ltb Z.compare store calls clockReads].
    rewrite Hte. cbn [store calls clockReads ports.Create NewGormProductRepository].
    rewrite (Create_known_SKU e db reachable Hex).
    cbn [fst snd store calls clockReads]. rewrite <- List.app_assoc. reflexivity. }
  rewrite Hout. cbn [fst snd store].
  split; [ reflexivity | ]. split; [ reflexivity | ]. split; [ | reflexivity ].
  exists e. split; [ exact Hte | apply callsSince_app ].
Qed.

Lemma CreateProduct_duplicate_in_other_spelling_witness :
  fst (usecases.CreateProduct (tables := asciiOnly) NewGormProductRepository
         Sample.clock Sample.sameSkuOtherCase (Sample.world Sample.oneRow))
  = Err (domainError productErrors.ErrFailedToCreateProduct)
  /\ store (snd (usecases.CreateProduct (tables := asciiOnly) NewGormProductRepository
                   Sample.clock Sample.sameSkuOtherCase (Sample.world Sample.oneRow)))
     = Sample.oneRow.
Proof.
  destruct (@CreateProduct_duplicate_in_other_spelling asciiOnly Sample.clock
              Sample.sameSkuOtherCase Sample.oneRow [] 0%nat)
    as (G1 & G2 & _).
  - reflexivity.
  - vm_compute. split; discriminate.
  - vm_compute. split; discriminate.
  - vm_compute. split; reflexivity.
  - vm_compute. discriminate.
  - vm_compute. discriminate.
  - vm_compute. reflexivity.
  - vm_compute. reflexivity.
  - split; [ exact G1 | exact G2 ].
Defined.

(** ** Examples for the properties of the factory and of the price *)

Lemma NewProduct_fields_trimmed_witness :
  List.Forall
    (fun field : string =>
       GoStrings.leadingSpace field = false /\ GoStrings.trailingSpace field = false)
    ["iPhone 15"; "Latest Apple smartphone"; "Electronics"; "Apple"].
Proof.
  apply (@NewProduct_fields_trimmed asciiOnly 1700000000
           " iPhone 15 " "Latest Apple smartphone " " iph15-128gb" " Electronics"
           " Apple" Sample.listPrice 100
           (entities.mkProduct 0%N "iPhone 15" "Latest Apple smartphone"
              "IPH15-128GB" Sample.listPrice "Electronics" "Apple" 100
              entities.ProductStatusActive 1700000000 1700000000)).
  vm_compute. reflexivity.
Defined.

Lemma UpdatePrice_lower_bound_witness :
  PrimFloat.leb 0%float
    (entities.Price (fst (entities.UpdatePrice 1700000009 4.5%float Sample.fiveInStock)))
  = true.
Proof.
  apply UpdatePrice_lower_bound; vm_compute; reflexivity.
Defined.
